(** * Lesson catalog validator: [scripts/validate_lessons.py]

    A shallow embedding of the validator and of the Python built-ins it
    calls, followed by theorems about the violation list it returns and
    about the exit status of the script.

    Conventions of the embedding.
    - A parsed document is a [json] value, the image of [json.loads]:
      [None], [bool], [int], [str], [list] and [dict].  JSON numbers with a
      fraction or an exponent become Python floats; their equality, hashing
      and printing follow IEEE 754 and are outside this embedding, which
      covers documents whose numbers are integers.
    - A Python [str] is a [string]; a [dict] is an association list in
      insertion order in which a lookup takes the first binding of a key.
    - A call that can raise returns a [result]; the loop state (the list
      [errors] and the dictionary [variants_by_strand]) is passed explicitly.
    - The iteration order of a [set] depends on the hash seed of the
      process: it is a permutation chosen by a [hash_seed]. *)

From Stdlib Require Import List String Ascii ZArith Bool Arith Lia.
From Stdlib Require Import Permutation Sorted DecimalString.
Import ListNotations.

#[local] Open Scope list_scope.
#[local] Open Scope string_scope.

(** * The embedding *)

(** ** Parsed documents *)

#[local] Set Warnings "-register-all".

Inductive json : Type :=
| JNull
| JBool (b : bool)
| JInt (z : Z)
| JStr (s : string)
| JArr (elems : list json)
| JObj (fields : list (string * json)).

(** ** Exceptions *)

Inductive exn : Type := AttributeError | TypeError.

Inductive result (A : Type) : Type :=
| Ok (a : A)
| Raise (e : exn).

Arguments Ok {A} a.
Arguments Raise {A} e.

Definition bind {A B} (r : result A) (k : A -> result B) : result B :=
  match r with
  | Ok a => k a
  | Raise e => Raise e
  end.

Notation "x <- c ;; k" := (bind c (fun x => k))
  (at level 61, c at next level, right associativity).
Notation "' pat <- c ;; k" := (bind c (fun x => match x with pat => k end))
  (at level 61, pat pattern, c at next level, right associativity).

(** [for x in xs: st = body(st, x)], stopping at the first exception. *)
Fixpoint for_each {A S} (body : S -> A -> result S) (xs : list A) (st : S)
  : result S :=
  match xs with
  | [] => Ok st
  | x :: xs' => st' <- body st x ;; for_each body xs' st'
  end.

(** ** Python built-ins used by the script *)

Module Py.

Fixpoint lookup (k : string) (fields : list (string * json)) : option json :=
  match fields with
  | [] => None
  | (k', v) :: rest => if String.eqb k' k then Some v else lookup k rest
  end.

(** [d.get(k, default)]: only a [dict] has the method. *)
Definition get (d : json) (k : string) (default : json) : result json :=
  match d with
  | JObj fields =>
      Ok (match lookup k fields with Some v => v | None => default end)
  | _ => Raise AttributeError
  end.

(** Truth value of an object, as tested by [not x] and [x or y]. *)
Definition truthy (v : json) : bool :=
  match v with
  | JNull => false
  | JBool b => b
  | JInt z => negb (Z.eqb z 0)
  | JStr s => negb (String.eqb s "")
  | JArr l => match l with [] => false | _ => true end
  | JObj f => match f with [] => false | _ => true end
  end.

(** [hash(v)]: lists and dictionaries are unhashable. *)
Definition hash (v : json) : result unit :=
  match v with
  | JArr _ | JObj _ => Raise TypeError
  | _ => Ok tt
  end.

(** [a == b] when one operand at least is a scalar, which is how the
    script compares: dictionary keys and set elements are hashable, and
    [in] tests a string.  [True == 1] and [False == 0]. *)
Definition eqb (a b : json) : bool :=
  match a, b with
  | JNull, JNull => true
  | JBool x, JBool y => Bool.eqb x y
  | JBool x, JInt y => Z.eqb (Z.b2z x) y
  | JInt x, JBool y => Z.eqb x (Z.b2z y)
  | JInt x, JInt y => Z.eqb x y
  | JStr x, JStr y => String.eqb x y
  | _, _ => false
  end.

(** Iteration: a list yields its elements, a dictionary its keys, a
    string its characters; nothing else is iterable. *)
Fixpoint chars (s : string) : list json :=
  match s with
  | EmptyString => []
  | String c s' => JStr (String c EmptyString) :: chars s'
  end.

Definition iter (v : json) : result (list json) :=
  match v with
  | JArr l => Ok l
  | JObj f => Ok (map (fun kv => JStr (fst kv)) f)
  | JStr s => Ok (chars s)
  | _ => Raise TypeError
  end.

Definition len (v : json) : result nat :=
  match v with
  | JArr l => Ok (List.length l)
  | JObj f => Ok (List.length f)
  | JStr s => Ok (String.length s)
  | _ => Raise TypeError
  end.

(** [needle in haystack] for strings. *)
Fixpoint substring_of (needle hay : string) : bool :=
  String.prefix needle hay ||
  match hay with
  | EmptyString => false
  | String _ hay' => substring_of needle hay'
  end.

(** [key in container] for a string [key]. *)
Definition contains (key : string) (container : json) : result bool :=
  match container with
  | JObj f => Ok (match lookup key f with Some _ => true | None => false end)
  | JArr l => Ok (existsb (eqb (JStr key)) l)
  | JStr s => Ok (substring_of key s)
  | _ => Raise TypeError
  end.

(** *** Printing: [str] and [repr] *)

Definition str_of_Z (z : Z) : string := NilZero.string_of_int (Z.to_int z).
Definition str_of_nat (n : nat) : string :=
  NilZero.string_of_uint (Nat.to_uint n).

Definition hex_digit (n : nat) : ascii :=
  match n with
  | 0 => "0" | 1 => "1" | 2 => "2" | 3 => "3" | 4 => "4" | 5 => "5"
  | 6 => "6" | 7 => "7" | 8 => "8" | 9 => "9" | 10 => "a" | 11 => "b"
  | 12 => "c" | 13 => "d" | 14 => "e" | _ => "f"
  end%char.

Fixpoint has_char (c : ascii) (s : string) : bool :=
  match s with
  | EmptyString => false
  | String c' s' => Ascii.eqb c c' || has_char c s'
  end.

(** The body of a string literal between quotes [q].  Bytes above 127
    belong to printable characters and are kept. *)
Fixpoint escape (q : ascii) (s : string) : string :=
  match s with
  | EmptyString => EmptyString
  | String c s' =>
      let n := nat_of_ascii c in
      (if Ascii.eqb c q || Ascii.eqb c "\"%char
       then String "\"%char (String c EmptyString)
       else if Nat.eqb n 9 then "\t"
       else if Nat.eqb n 10 then "\n"
       else if Nat.eqb n 13 then "\r"
       else if Nat.ltb n 32 || Nat.eqb n 127
       then String "\"%char (String "x"%char
              (String (hex_digit (n / 16))
                 (String (hex_digit (n mod 16)) EmptyString)))
       else String c EmptyString) ++ escape q s'
  end.

Definition squote : ascii := "'"%char.
Definition dquote : ascii := ascii_of_nat 34.

Definition repr_str (s : string) : string :=
  let q := if has_char squote s && negb (has_char dquote s)
           then dquote else squote in
  String q (escape q s ++ String q EmptyString).

Fixpoint repr (v : json) : string :=
  match v with
  | JNull => "None"
  | JBool true => "True"
  | JBool false => "False"
  | JInt z => str_of_Z z
  | JStr s => repr_str s
  | JArr l => "[" ++ String.concat ", " (map repr l) ++ "]"
  | JObj f =>
      "{" ++ String.concat ", "
               (map (fun kv => repr_str (fst kv) ++ ": " ++ repr (snd kv)) f)
          ++ "}"
  end.

(** [str(v)], which is what an f-string field prints. *)
Definition str (v : json) : string :=
  match v with
  | JStr s => s
  | _ => repr v
  end.

(** *** Sets

    A set is kept as the list of its elements in insertion order, without
    two equal elements.  Iterating it visits them in an order that the
    hash seed of the process decides. *)

Definition hash_seed : Type := list json -> list nat.

Definition insert_at {A} (n : nat) (x : A) (l : list A) : list A :=
  (firstn n l ++ x :: skipn n l)%list.

Fixpoint shuffle {A} (code : list nat) (l : list A) {struct l} : list A :=
  match l with
  | [] => []
  | x :: l' =>
      match code with
      | [] => l
      | n :: code' => insert_at n x (shuffle code' l')
      end
  end.

Definition set_iter (seed : hash_seed) (s : list json) : list json :=
  shuffle (seed s) s.

Definition str_set_iter (seed : hash_seed) (s : list string) : list string :=
  shuffle (seed (map JStr s)) s.

Definition set_mem (v : json) (s : list json) : bool := existsb (eqb v) s.

(** [s.add(v)] *)
Definition set_add (v : json) (s : list json) : list json :=
  if set_mem v s then s else (s ++ [v])%list.

(** [v in S] for a set of strings [S]: the operand is hashed first. *)
Definition in_str_set (v : json) (S : list string) : result bool :=
  _ <- hash v ;; Ok (set_mem v (map JStr S)).

(** [s == S] for a set [s] and a set of strings [S]: equal sizes, and
    every element of [s] in [S]. *)
Definition set_eq (s : list json) (S : list string) : bool :=
  Nat.eqb (List.length s) (List.length S)
  && forallb (fun v => set_mem v (map JStr S)) s.

(** [S - s] keeps the elements of the left operand. *)
Definition set_diff (S : list string) (s : list json) : list string :=
  filter (fun r => negb (set_mem (JStr r) s)) S.

(** *** Sorting and joining

    [sorted] is stable and only asks [<]; an insertion sort that puts an
    element before the ones it is not greater than does the same. *)

Fixpoint insert_str (x : string) (l : list string) : list string :=
  match l with
  | [] => [x]
  | y :: l' => if String.ltb y x then y :: insert_str x l' else x :: l
  end.

(** [sorted(l)] for a list of strings. *)
Definition sorted_str (l : list string) : list string :=
  fold_right insert_str [] l.

Definition num (v : json) : Z :=
  match v with
  | JBool b => Z.b2z b
  | JInt z => z
  | _ => 0%Z
  end.

(** [a < b] on set elements: strings with strings, numbers with numbers. *)
Definition lt (a b : json) : result bool :=
  match a, b with
  | JStr x, JStr y => Ok (String.ltb x y)
  | JBool _, JBool _ | JBool _, JInt _
  | JInt _, JBool _ | JInt _, JInt _ => Ok (Z.ltb (num a) (num b))
  | _, _ => Raise TypeError
  end.

Fixpoint insert (x : json) (l : list json) : result (list json) :=
  match l with
  | [] => Ok [x]
  | y :: l' =>
      b <- lt y x ;;
      if b then (r <- insert x l' ;; Ok (y :: r)) else Ok (x :: l)
  end.

(** [sorted(l)] for any list. *)
Fixpoint sorted (l : list json) : result (list json) :=
  match l with
  | [] => Ok []
  | x :: l' => r <- sorted l' ;; insert x r
  end.

Fixpoint strings (l : list json) : result (list string) :=
  match l with
  | [] => Ok []
  | JStr s :: l' => r <- strings l' ;; Ok (s :: r)
  | _ :: _ => Raise TypeError
  end.

(** [sep.join(l)]: every item has to be a string. *)
Definition join (sep : string) (l : list json) : result string :=
  ss <- strings l ;; Ok (String.concat sep ss).

End Py.

(** ** The script *)

Definition REQUIRED_VARIANTS : list string :=
  ["practice"; "challenge"; "remediation"].
Definition REQUIRED_DIFFICULTIES : list string :=
  ["emerging"; "developing"; "secure"; "extending"].

(** [variants_by_strand]: the keys are the pairs [(grade, strand)] in the
    order of their first insertion. *)
Definition key : Type := json * json.
Definition groups : Type := list (key * list json).

Definition key_eqb (a b : key) : bool :=
  Py.eqb (fst a) (fst b) && Py.eqb (snd a) (snd b).

(** [variants_by_strand[k].add(v)]: a missing key is first bound to the
    empty set. *)
Fixpoint add_variant (k : key) (v : json) (d : groups) : groups :=
  match d with
  | [] => [(k, Py.set_add v [])]
  | (k', s) :: d' =>
      if key_eqb k' k then (k', Py.set_add v s) :: d'
      else (k', s) :: add_variant k v d'
  end.

(** [if c: errors.append(msg)] *)
Definition append_if (c : bool) (msg : string) (errors : list string)
  : list string :=
  if c then (errors ++ [msg])%list else errors.

(** The body of the loop over [enumerate(lesson.get("items", []))]; the
    state is [errors] and the next [index]. *)
Definition item_body (lid : json) (st : list string * nat) (item : json)
  : result (list string * nat) :=
  let '(errors, index) := st in
  let prefix := Py.str lid ++ " item " ++ Py.str_of_nat (index + 1) in
  hints <- Py.get item "hints" JNull ;;
  let errors :=
    append_if (negb (Py.truthy hints))
      (prefix ++ ": must include at least one hint") errors in
  scaffolds <- Py.get item "scaffolds" JNull ;;
  let errors :=
    append_if (negb (Py.truthy scaffolds))
      (prefix ++ ": must include at least one scaffold") errors in
  Ok (errors, S index).

(** The body of the loop over the lessons. *)
Definition lesson_body (seed : Py.hash_seed) (st : list string * groups)
  (lesson : json) : result (list string * groups) :=
  let '(errors, variants_by_strand) := st in
  lid <- Py.get lesson "id" (JStr "<missing>") ;;
  grade <- Py.get lesson "grade" (JStr "<missing>") ;;
  strand <- Py.get lesson "strandID" (JStr "<missing>") ;;
  variant <- Py.get lesson "variant" JNull ;;
  difficulty <- Py.get lesson "difficulty" JNull ;;
  _ <- Py.hash grade ;;
  _ <- Py.hash strand ;;
  _ <- Py.hash variant ;;
  let variants_by_strand := add_variant (grade, strand) variant variants_by_strand in
  objectives <- Py.get lesson "objectives" JNull ;;
  let errors :=
    append_if (negb (Py.truthy objectives))
      (Py.str lid ++ ": objectives must not be empty") errors in
  known <- Py.in_str_set variant REQUIRED_VARIANTS ;;
  let errors :=
    append_if (negb known)
      (Py.str lid ++ ": variant '" ++ Py.str variant ++ "' is not one of "
       ++ Py.repr (JArr (map JStr
            (Py.sorted_str (Py.str_set_iter seed REQUIRED_VARIANTS)))))
      errors in
  known <- Py.in_str_set difficulty REQUIRED_DIFFICULTIES ;;
  let errors :=
    append_if (negb known)
      (Py.str lid ++ ": difficulty '" ++ Py.str difficulty
       ++ "' is not recognised") errors in
  hints <- Py.get lesson "hints" JNull ;;
  let errors :=
    append_if (negb (Py.truthy hints))
      (Py.str lid ++ ": must provide at least one lesson hint") errors in
  scaffolds <- Py.get lesson "scaffolds" JNull ;;
  let errors :=
    append_if (negb (Py.truthy scaffolds))
      (Py.str lid ++ ": must provide at least one lesson scaffold") errors in
  rule <- Py.get lesson "masteryRule" JNull ;;
  let mastery := if Py.truthy rule then rule else JObj [] in
  has <- Py.contains "scoreThreshold" mastery ;;
  let errors :=
    append_if (negb has)
      (Py.str lid ++ ": masteryRule missing scoreThreshold") errors in
  has <- Py.contains "minimumItems" mastery ;;
  let errors :=
    append_if (negb has)
      (Py.str lid ++ ": masteryRule missing minimumItems") errors in
  items_v <- Py.get lesson "items" (JArr []) ;;
  items <- Py.iter items_v ;;
  '(errors, _) <- for_each (item_body lid) items (errors, 0) ;;
  Ok (errors, variants_by_strand).

(** The body of the loop over [variants_by_strand.items()]. *)
Definition coverage_body (seed : Py.hash_seed) (errors : list string)
  (entry : key * list json) : list string :=
  let '((grade, strand), variants) := entry in
  if negb (Py.set_eq variants REQUIRED_VARIANTS) then
    let missing := Py.set_diff REQUIRED_VARIANTS variants in
    app errors
      [Py.str grade ++ "/" ++ Py.str strand ++ " missing lesson variants: "
       ++ String.concat ", " (Py.sorted_str (Py.str_set_iter seed missing))]
  else errors.

Definition validate_lessons (seed : Py.hash_seed) (catalog : json)
  : result (list string) :=
  lessons_v <- Py.get catalog "lessons" (JArr []) ;;
  lessons <- Py.iter lessons_v ;;
  '(errors, variants_by_strand) <-
    for_each (lesson_body seed) lessons ([], []) ;;
  Ok (fold_left (coverage_body seed) variants_by_strand errors).

(** [{lesson.get("grade") for lesson in lessons}] *)
Definition grade_set_body (s : list json) (lesson : json)
  : result (list json) :=
  grade <- Py.get lesson "grade" JNull ;;
  _ <- Py.hash grade ;;
  Ok (Py.set_add grade s).

(** [main], after the catalog is loaded: the lines it prints and the value
    it returns. *)
Definition main (seed : Py.hash_seed) (catalog : json)
  : result (list string * Z) :=
  errors <- validate_lessons seed catalog ;;
  match errors with
  | _ :: _ =>
      Ok ("Lesson validation failed:" :: map (fun m => "  - " ++ m) errors,
          1%Z)
  | [] =>
      lessons <- Py.get catalog "lessons" (JArr []) ;;
      elems <- Py.iter lessons ;;
      grade_set <- for_each grade_set_body elems [] ;;
      grades <- Py.sorted (Py.set_iter seed grade_set) ;;
      n <- Py.len lessons ;;
      joined <- Py.join ", " grades ;;
      Ok (["Validated " ++ Py.str_of_nat n ++ " lessons across grades: "
           ++ joined], 0%Z)
  end.

(** [sys.exit(main())]: the exit status is the value returned, and 1 when
    an exception is not caught. *)
Definition exit_status (r : result (list string * Z)) : Z :=
  match r with
  | Ok (_, code) => code
  | Raise _ => 1%Z
  end.

(** The lines written to standard output. *)
Definition stdout (r : result (list string * Z)) : list string :=
  match r with
  | Ok (out, _) => out
  | Raise _ => []
  end.

(** ** Loading the catalog and running the script

    The file system and [json.loads] are not part of the script: they are
    parameters of [load_catalog].  A path is the string [str(path)]. *)


(** [path.read_text(encoding="utf-8")]: the text of the file,
    [FileNotFoundError], or an exception that [load_catalog] does not catch
    ([PermissionError], [UnicodeDecodeError], ...). *)
Inductive read_outcome : Type :=
| ReadText (text : string)
| FileNotFoundError
| ReadFailure.

(** [json.loads(text)]: the document, or [JSONDecodeError] with the
    diagnostic it prints as. *)
Inductive parse_outcome : Type :=
| Parsed (data : json)
| JSONDecodeError (diagnostic : string).

(** How [load_catalog] ends: it returns the document, raises
    [SystemExit(message)], or lets an exception through. *)
Inductive loaded : Type :=
| Loaded (data : json)
| SystemExit (message : string)
| Uncaught.

Definition load_catalog (read_text : string -> read_outcome)
  (loads : string -> parse_outcome) (path : string) : loaded :=
  match read_text path with
  | ReadText text =>
      match loads text with
      | Parsed data => Loaded data
      | JSONDecodeError diagnostic =>
          SystemExit ("Catalog at " ++ path ++ " is not valid JSON: "
                      ++ diagnostic)
      end
  | FileNotFoundError => SystemExit ("Catalog not found at " ++ path)
  | ReadFailure => Uncaught
  end.




(** * Notions used to state the properties *)

(** ** Lessons and their fields *)

(** A field of a lesson, with the default [lesson.get] would return. *)
Definition field (obj : json) (k : string) (default : json) : json :=
  match obj with
  | JObj f => match Py.lookup k f with Some v => v | None => default end
  | _ => default
  end.

(** The identifier of a lesson, with the placeholder of the script. *)
Definition lesson_id (lesson : json) : json :=
  field lesson "id" (JStr "<missing>").

(** The dictionary key of a lesson: its grade and strand, with the
    placeholders of the script. *)
Definition lesson_key (lesson : json) : key :=
  (field lesson "grade" (JStr "<missing>"),
   field lesson "strandID" (JStr "<missing>")).

(** The variant of a lesson, [None] when it has none. *)
Definition lesson_variant (lesson : json) : json :=
  field lesson "variant" JNull.

Definition lesson_difficulty (lesson : json) : json :=
  field lesson "difficulty" JNull.

(** [lesson.get("masteryRule") or {}] *)
Definition mastery (lesson : json) : json :=
  let rule := field lesson "masteryRule" JNull in
  if Py.truthy rule then rule else JObj [].

(** [lesson.get("items", [])] *)
Definition lesson_items (lesson : json) : json :=
  field lesson "items" (JArr []).

(** [catalog.get("lessons", [])], iterated. *)
Definition catalog_lessons (catalog : json) : result (list json) :=
  lessons_v <- Py.get catalog "lessons" (JArr []) ;; Py.iter lessons_v.

(** [lesson.get("grade")], as [main] reads it. *)
Definition lesson_grade (lesson : json) : json :=
  field lesson "grade" JNull.

(** The number of items of a lesson. *)
Definition item_count (lesson : json) : nat :=
  match Py.iter (lesson_items lesson) with
  | Ok items => List.length items
  | Raise _ => 0
  end.

(** ** The loops, one pass at a time *)

(** What one pass of the loop body does to [variants_by_strand]. *)
Definition record_variant (g : groups) (lesson : json) : groups :=
  add_variant (lesson_key lesson) (lesson_variant lesson) g.

(** What one pass of the loop body appends to an empty [errors]. *)
Definition lesson_errors (seed : Py.hash_seed) (lesson : json)
  : result (list string) :=
  st <- lesson_body seed ([], []) lesson ;; Ok (fst st).

(** What the item loop appends for the items of one lesson. *)
Definition item_errors (lid : json) (items : list json) (index : nat)
  : result (list string) :=
  st <- for_each (item_body lid) items ([], index) ;; Ok (fst st).

(** [f] on every element, stopping at the first exception. *)
Fixpoint map_result {A B} (f : A -> result B) (l : list A) : result (list B) :=
  match l with
  | [] => Ok []
  | x :: l' => y <- f x ;; ys <- map_result f l' ;; Ok (y :: ys)
  end.

(** ** Groups and their variant sets *)

(** Values that can be dictionary keys and set elements. *)
Definition hashable (v : json) : Prop := Py.hash v = Ok tt.

Definition key_hashable (k : key) : Prop :=
  hashable (fst k) /\ hashable (snd k).

(** The keys of a list in the order of their first occurrence. *)
Fixpoint group_keys (ks : list key) : list key :=
  match ks with
  | [] => []
  | k :: ks' => k :: filter (fun k' => negb (key_eqb k k')) (group_keys ks')
  end.

(** The variants of the lessons of group [k], in document order. *)
Definition group_variants (k : key) (lessons : list json) : list json :=
  map lesson_variant (filter (fun l => key_eqb k (lesson_key l)) lessons).

(** The set obtained by adding the values [vs] to the set [s], in order. *)
Definition set_of (vs : list json) (s : list json) : list json :=
  fold_left (fun s v => Py.set_add v s) vs s.

(** A key equal to [k] is among [ks]. *)
Definition known (ks : list key) (k : key) : bool :=
  existsb (fun k' => key_eqb k' k) ks.

(** No two keys of the list are equal. *)
Fixpoint distinct (ks : list key) : Prop :=
  match ks with
  | [] => True
  | k :: ks' => (forall k', In k' ks' -> key_eqb k k' = false) /\ distinct ks'
  end.

(** The entry [e] after a lesson of key [k] and variant [v]. *)
Definition update (k : key) (v : json) (e : key * list json)
  : key * list json :=
  if key_eqb (fst e) k then (fst e, Py.set_add v (snd e)) else e.

(** No two elements of a set are equal. *)
Fixpoint unique (s : list json) : Prop :=
  match s with
  | [] => True
  | v :: s' => Py.set_mem v s' = false /\ unique s'
  end.

(** ** The coverage rule *)

(** The required variants, as values. *)
Definition required : list json := map JStr REQUIRED_VARIANTS.

(** The variants seen are exactly the required ones. *)
Definition covers (seen : list json) : Prop :=
  forall v, In v seen <-> In v required.

(** The required variants in sorted order. *)
Definition sorted_required : list string :=
  ["challenge"; "practice"; "remediation"].

(** The required variants that no lesson of the group has, in sorted order. *)
Definition missing_variants (seen : list json) : list string :=
  filter (fun r => negb (Py.set_mem (JStr r) seen)) sorted_required.

(** The coverage message of group [k]. *)
Definition coverage_message (k : key) (missing : list string) : string :=
  Py.str (fst k) ++ "/" ++ Py.str (snd k) ++ " missing lesson variants: "
  ++ String.concat ", " missing.

(** What the second loop appends for the group [k] whose lessons have the
    variants [seen]. *)
Definition coverage_errors (k : key) (seen : list json) : list string :=
  if Py.set_eq (set_of seen []) REQUIRED_VARIANTS then []
  else [coverage_message k (missing_variants seen)].

(** What rule 8 asks of the messages [cov] reported for group [k]: none
    when the variants seen are exactly the required ones, and otherwise one
    message that names the group and lists, in sorted order, the required
    variants not seen. *)
Definition coverage_rule (lessons : list json) (k : key) (cov : list string)
  : Prop :=
  let seen := group_variants k lessons in
  (covers seen <-> cov = [])
  /\ (~ covers seen ->
      exists missing,
        cov = [Py.str (fst k) ++ "/" ++ Py.str (snd k)
               ++ " missing lesson variants: " ++ String.concat ", " missing]
        /\ StronglySorted (fun a b => String.ltb a b = true) missing
        /\ forall r, In r missing <->
                     In r REQUIRED_VARIANTS /\ ~ In (JStr r) seen).

(** ** The rules on a lesson *)

(** The rules checked on a lesson, and on its items by position. *)
Inductive rule : Type :=
| Objectives
| Variant
| Difficulty
| Hints
| Scaffolds
| ScoreThreshold
| MinimumItems
| ItemHints (i : nat)
| ItemScaffolds (i : nat).

(** The prefix of the messages of the item at position [index]. *)
Definition item_prefix (lid : json) (index : nat) : string :=
  Py.str lid ++ " item " ++ Py.str_of_nat (index + 1).

(** The message of each rule; items are counted from 0 here and from 1 in
    the message. *)
Definition rule_message (r : rule) (lesson : json) : string :=
  let lid := Py.str (lesson_id lesson) in
  match r with
  | Objectives => lid ++ ": objectives must not be empty"
  | Variant =>
      lid ++ ": variant '" ++ Py.str (lesson_variant lesson)
      ++ "' is not one of ['challenge', 'practice', 'remediation']"
  | Difficulty =>
      lid ++ ": difficulty '" ++ Py.str (lesson_difficulty lesson)
      ++ "' is not recognised"
  | Hints => lid ++ ": must provide at least one lesson hint"
  | Scaffolds => lid ++ ": must provide at least one lesson scaffold"
  | ScoreThreshold => lid ++ ": masteryRule missing scoreThreshold"
  | MinimumItems => lid ++ ": masteryRule missing minimumItems"
  | ItemHints i =>
      item_prefix (lesson_id lesson) i ++ ": must include at least one hint"
  | ItemScaffolds i =>
      item_prefix (lesson_id lesson) i
      ++ ": must include at least one scaffold"
  end.

(** When a lesson breaks a rule. *)
Definition violated (r : rule) (lesson : json) : Prop :=
  match r with
  | Objectives => Py.truthy (field lesson "objectives" JNull) = false
  | Variant => ~ In (lesson_variant lesson) required
  | Difficulty =>
      ~ In (lesson_difficulty lesson) (map JStr REQUIRED_DIFFICULTIES)
  | Hints => Py.truthy (field lesson "hints" JNull) = false
  | Scaffolds => Py.truthy (field lesson "scaffolds" JNull) = false
  | ScoreThreshold => Py.contains "scoreThreshold" (mastery lesson) = Ok false
  | MinimumItems => Py.contains "minimumItems" (mastery lesson) = Ok false
  | ItemHints i =>
      exists items item,
        Py.iter (lesson_items lesson) = Ok items
        /\ nth_error items i = Some item
        /\ Py.truthy (field item "hints" JNull) = false
  | ItemScaffolds i =>
      exists items item,
        Py.iter (lesson_items lesson) = Ok items
        /\ nth_error items i = Some item
        /\ Py.truthy (field item "scaffolds" JNull) = false
  end.

(** The message [msg] when the condition [c] holds. *)
Definition check (c : bool) (msg : string) : list string :=
  if c then [msg] else [].

(** The messages of the items from position [index] on. *)
Fixpoint item_checks (lid : json) (index : nat) (items : list json)
  : list string :=
  match items with
  | [] => []
  | item :: rest =>
      (check (negb (Py.truthy (field item "hints" JNull)))
         (item_prefix lid index ++ ": must include at least one hint")
       ++ check (negb (Py.truthy (field item "scaffolds" JNull)))
            (item_prefix lid index ++ ": must include at least one scaffold")
       ++ item_checks lid (S index) rest)%list
  end.

(** The messages of the seven rules on the lesson itself, given whether the
    mastery rule has each key. *)
Definition lesson_checks (lesson : json) (has_score has_minimum : bool)
  : list string :=
  (check (negb (Py.truthy (field lesson "objectives" JNull)))
     (rule_message Objectives lesson)
   ++ check (negb (Py.set_mem (lesson_variant lesson) required))
        (rule_message Variant lesson)
   ++ check (negb (Py.set_mem (lesson_difficulty lesson)
                     (map JStr REQUIRED_DIFFICULTIES)))
        (rule_message Difficulty lesson)
   ++ check (negb (Py.truthy (field lesson "hints" JNull)))
        (rule_message Hints lesson)
   ++ check (negb (Py.truthy (field lesson "scaffolds" JNull)))
        (rule_message Scaffolds lesson)
   ++ check (negb has_score) (rule_message ScoreThreshold lesson)
   ++ check (negb has_minimum) (rule_message MinimumItems lesson))%list.

(** ** The shape of a catalog *)

Definition is_dict (v : json) : bool :=
  match v with JObj _ => true | _ => false end.

(** [hash] returns on [v]. *)
Definition is_hashable (v : json) : bool :=
  match v with JArr _ | JObj _ => false | _ => true end.

(** A value the loops can walk without an exception: an array of objects,
    or an empty object or string, which yield nothing. *)
Definition dict_sequence (v : json) : bool :=
  match v with
  | JArr l => forallb is_dict l
  | JObj [] => true
  | JStr EmptyString => true
  | _ => false
  end.

(** A mastery rule that [in] can search: not [true], not a number other
    than zero. *)
Definition searchable (v : json) : bool :=
  match v with
  | JBool b => negb b
  | JInt z => Z.eqb z 0
  | _ => true
  end.

(** A lesson on which the loop body raises nothing. *)
Definition well_shaped_lesson (lesson : json) : bool :=
  is_dict lesson
  && is_hashable (fst (lesson_key lesson))
  && is_hashable (snd (lesson_key lesson))
  && is_hashable (lesson_variant lesson)
  && is_hashable (lesson_difficulty lesson)
  && searchable (field lesson "masteryRule" JNull)
  && dict_sequence (lesson_items lesson).

(** A document of the catalog shape. *)
Definition well_shaped (catalog : json) : bool :=
  match catalog with
  | JObj _ =>
      match field catalog "lessons" (JArr []) with
      | JArr lessons => forallb well_shaped_lesson lessons
      | JObj [] => true
      | JStr EmptyString => true
      | _ => false
      end
  | _ => false
  end.

(** ** The grades of the summary *)

Definition is_str (v : json) : bool :=
  match v with JStr _ => true | _ => false end.

(** The strings of a list of values. *)
Definition str_values (l : list json) : list string :=
  flat_map (fun v => match v with JStr s => [s] | _ => [] end) l.


(** ** Example catalogs *)

(** The hash seed under which a set is iterated in insertion order. *)
Definition seed0 : Py.hash_seed := fun _ => [].

(** A lesson of grade 3, strand S1, that breaks no rule when its variant is
    one of the required ones. *)
Definition lesson_of (variant : string) : json :=
  JObj [("id", JStr ("L-" ++ variant)); ("grade", JStr "3");
        ("strandID", JStr "S1"); ("variant", JStr variant);
        ("difficulty", JStr "secure"); ("objectives", JArr [JStr "count"]);
        ("hints", JArr [JStr "h"]); ("scaffolds", JArr [JStr "s"]);
        ("masteryRule",
         JObj [("scoreThreshold", JInt 8); ("minimumItems", JInt 3)])].

(** The same lesson with the grade [grade]. *)
Definition graded_lesson (grade : json) (variant : string) : json :=
  JObj [("id", JStr ("L-" ++ variant)); ("grade", grade);
        ("strandID", JStr "S1"); ("variant", JStr variant);
        ("difficulty", JStr "secure"); ("objectives", JArr [JStr "count"]);
        ("hints", JArr [JStr "h"]); ("scaffolds", JArr [JStr "s"]);
        ("masteryRule",
         JObj [("scoreThreshold", JInt 8); ("minimumItems", JInt 3)])].

(** The catalog with the lessons [lessons]. *)
Definition catalog_of (lessons : list json) : json :=
  JObj [("lessons", JArr lessons)].

(** The same lesson without its grade. *)
Definition ungraded_lesson (variant : string) : json :=
  JObj [("id", JStr ("L-" ++ variant)); ("strandID", JStr "S1");
        ("variant", JStr variant); ("difficulty", JStr "secure");
        ("objectives", JArr [JStr "count"]); ("hints", JArr [JStr "h"]);
        ("scaffolds", JArr [JStr "s"]);
        ("masteryRule",
         JObj [("scoreThreshold", JInt 8); ("minimumItems", JInt 3)])].

(** Three lessons without grade that break no rule and cover the three
    variants of their group. *)
Definition ungraded_catalog : json :=
  catalog_of [ungraded_lesson "practice"; ungraded_lesson "challenge";
              ungraded_lesson "remediation"].

(** * Auxiliary results *)

(** ** The order of strings *)

Section StringOrder.

Lemma string_compare_refl (s : string) : String.compare s s = Eq.
Proof.
  induction s as [|c s IH]; simpl; [reflexivity|].
  unfold Ascii.compare. now rewrite N.compare_refl.
Qed.

Lemma string_compare_lt_trans (a b c : string) :
  String.compare a b = Lt -> String.compare b c = Lt ->
  String.compare a c = Lt.
Proof.
  revert b c.
  induction a as [|x a IH]; intros [|y b] [|z c]; simpl; try congruence.
  unfold Ascii.compare.
  destruct (N.compare_spec (N_of_ascii x) (N_of_ascii y)) as [Exy|Lxy|Gxy];
    destruct (N.compare_spec (N_of_ascii y) (N_of_ascii z)) as [Eyz|Lyz|Gyz];
    destruct (N.compare_spec (N_of_ascii x) (N_of_ascii z)) as [Exz|Lxz|Gxz];
    try congruence; try lia; intros Hab Hbc.
  now apply (IH b c).
Qed.

Lemma ltb_irrefl (s : string) : String.ltb s s = false.
Proof. unfold String.ltb. now rewrite string_compare_refl. Qed.

Lemma ltb_trans (a b c : string) :
  String.ltb a b = true -> String.ltb b c = true -> String.ltb a c = true.
Proof.
  unfold String.ltb.
  destruct (String.compare a b) eqn:Hab; try discriminate.
  destruct (String.compare b c) eqn:Hbc; try discriminate.
  now rewrite (string_compare_lt_trans a b c Hab Hbc).
Qed.

Lemma ltb_trichotomy (a b : string) :
  String.ltb a b = true \/ a = b \/ String.ltb b a = true.
Proof.
  unfold String.ltb. rewrite (String.compare_antisym b a).
  destruct (String.compare a b) eqn:Hab; simpl; auto.
  right; left. now apply String.compare_eq_iff.
Qed.

Lemma ltb_asym (a b : string) :
  String.ltb a b = true -> String.ltb b a = false.
Proof.
  intros Hab. destruct (String.ltb b a) eqn:Hba; [|reflexivity].
  pose proof (ltb_trans a b a Hab Hba) as H.
  now rewrite ltb_irrefl in H.
Qed.

End StringOrder.

(** ** Sorting does not depend on the order of iteration *)

Section SortedPermutation.

Lemma insert_at_perm {A} (n : nat) (x : A) (l : list A) :
  Permutation (Py.insert_at n x l) (x :: l).
Proof.
  unfold Py.insert_at. symmetry.
  rewrite <- (firstn_skipn n l) at 1.
  apply Permutation_middle.
Qed.

Lemma shuffle_perm {A} (code : list nat) (l : list A) :
  Permutation (Py.shuffle code l) l.
Proof.
  revert code. induction l as [|x l IH]; intros code; simpl; [apply perm_nil|].
  destruct code as [|n code]; [reflexivity|].
  rewrite insert_at_perm. now constructor.
Qed.

Lemma insert_str_comm (x y : string) (l : list string) :
  Py.insert_str x (Py.insert_str y l) = Py.insert_str y (Py.insert_str x l).
Proof.
  induction l as [|z l IH].
  - destruct (ltb_trichotomy x y) as [H|[H|H]]; [|now subst|];
      simpl; now rewrite H, (ltb_asym _ _ H).
  - destruct (String.ltb z y) eqn:Hzy, (String.ltb z x) eqn:Hzx.
    + simpl. rewrite Hzy, Hzx. simpl. now rewrite Hzy, Hzx, IH.
    + assert (Hxy : String.ltb x y = true).
      { destruct (ltb_trichotomy x y) as [H|[H|H]]; [assumption| |].
        - subst. congruence.
        - rewrite (ltb_trans _ _ _ Hzy H) in Hzx. discriminate. }
      simpl. rewrite Hzy, Hzx. simpl. now rewrite Hxy, Hzx, Hzy.
    + assert (Hyx : String.ltb y x = true).
      { destruct (ltb_trichotomy y x) as [H|[H|H]]; [assumption| |].
        - subst. congruence.
        - rewrite (ltb_trans _ _ _ Hzx H) in Hzy. discriminate. }
      simpl. rewrite Hzy, Hzx. simpl. now rewrite Hyx, Hzx, Hzy.
    + destruct (ltb_trichotomy x y) as [H|[H|H]]; [|now subst|];
        simpl; rewrite Hzy, Hzx; simpl;
        now rewrite H, (ltb_asym _ _ H), ?Hzx, ?Hzy.
Qed.

Lemma sorted_str_perm (l l' : list string) :
  Permutation l l' -> Py.sorted_str l = Py.sorted_str l'.
Proof.
  unfold Py.sorted_str.
  induction 1 as [|x l l' _ IH|x y l|l l' l'' _ IH1 _ IH2]; simpl.
  - reflexivity.
  - now rewrite IH.
  - apply insert_str_comm.
  - now rewrite IH1.
Qed.

Lemma sorted_str_set_iter (seed : Py.hash_seed) (s : list string) :
  Py.sorted_str (Py.str_set_iter seed s) = Py.sorted_str s.
Proof. apply sorted_str_perm, shuffle_perm. Qed.

End SortedPermutation.

(** ** The loop over the lessons, lesson by lesson *)

Section Framing.

Variable seed : Py.hash_seed.

Lemma append_if_frame (c : bool) (m : string) (e e' : list string) :
  append_if c m (e ++ e')%list = (e ++ append_if c m e')%list.
Proof. destruct c; simpl; [now rewrite app_assoc | reflexivity]. Qed.

Lemma item_loop_frame (lid : json) (items : list json) :
  forall (e e' : list string) (n : nat),
    for_each (item_body lid) items ((e ++ e')%list, n) =
    (st <- for_each (item_body lid) items (e', n) ;;
     Ok ((e ++ fst st)%list, snd st)).
Proof.
  induction items as [|item items IH]; intros e e' n; simpl; [reflexivity|].
  destruct item; simpl; try reflexivity.
  rewrite !append_if_frame. apply IH.
Qed.

Lemma lesson_body_frame (e : list string) (g : groups) (lesson : json) :
  lesson_body seed (e, g) lesson =
  (blk <- lesson_errors seed lesson ;;
   Ok ((e ++ blk)%list, record_variant g lesson)).
Proof.
  destruct lesson; try reflexivity.
  unfold record_variant, lesson_errors, lesson_body, lesson_key,
    lesson_variant, field.
  cbn [Py.get bind].
  repeat match goal with
         | |- context [Py.lookup ?k fields] =>
             generalize (Py.lookup k fields); intro
         end.
  repeat match goal with
         | |- context [bind ?c _] =>
             match c with
             | for_each _ _ _ => fail 1
             | bind _ _ => fail 1
             | _ => destruct c; cbn [bind fst snd]; try reflexivity
             end
         end.
  rewrite <- (app_nil_r e) at 1.
  rewrite !append_if_frame, item_loop_frame. cbn [bind].
  match goal with
  | |- context [for_each ?b ?l ?s] => destruct (for_each b l s) as [[e1 n1]|]
  end; cbn [bind fst snd]; reflexivity.
Qed.

Lemma lesson_loop_frame (lessons : list json) :
  forall (e : list string) (g : groups),
    for_each (lesson_body seed) lessons (e, g) =
    (blocks <- map_result (lesson_errors seed) lessons ;;
     Ok ((e ++ List.concat blocks)%list, fold_left record_variant lessons g)).
Proof.
  induction lessons as [|l ls IH]; intros e g;
    cbn [for_each map_result fold_left bind List.concat].
  - now rewrite app_nil_r.
  - rewrite lesson_body_frame.
    destruct (lesson_errors seed l) as [blk|]; cbn [bind]; [|reflexivity].
    rewrite IH.
    destruct (map_result (lesson_errors seed) ls);
      cbn [bind List.concat]; [|reflexivity].
    now rewrite app_assoc.
Qed.

End Framing.

(** ** Equality of keys and of set elements *)

Section Equality.

Lemma eqb_refl (v : json) : hashable v -> Py.eqb v v = true.
Proof.
  destruct v; cbn; try discriminate; intros _; try reflexivity.
  - apply Bool.eqb_reflx.
  - apply Z.eqb_refl.
  - apply String.eqb_refl.
Qed.

Lemma eqb_sym (a b : json) : Py.eqb a b = Py.eqb b a.
Proof.
  destruct a, b; cbn; try reflexivity.
  - now destruct b, b0.
  - now rewrite Z.eqb_sym.
  - now rewrite Z.eqb_sym.
  - apply Z.eqb_sym.
  - apply String.eqb_sym.
Qed.

Lemma eqb_trans (a b c : json) :
  Py.eqb a b = true -> Py.eqb b c = true -> Py.eqb a c = true.
Proof.
  destruct a as [|[]| | | |], b as [|[]| | | |], c as [|[]| | | |];
    cbn [Py.eqb Z.b2z Bool.eqb]; try discriminate; try reflexivity;
    rewrite ?Z.eqb_eq, ?String.eqb_eq;
    intros; subst; try reflexivity; try congruence; try discriminate.
Qed.

Lemma eqb_JStr (s : string) (v : json) :
  Py.eqb (JStr s) v = true <-> v = JStr s.
Proof.
  destruct v; cbn; split; try discriminate.
  - intros H. apply String.eqb_eq in H. now subst.
  - intros H. injection H as ->. apply String.eqb_refl.
Qed.

Lemma key_eqb_refl (k : key) : key_hashable k -> key_eqb k k = true.
Proof.
  intros [H1 H2]. unfold key_eqb. now rewrite !eqb_refl.
Qed.

Lemma key_eqb_sym (a b : key) : key_eqb a b = key_eqb b a.
Proof.
  unfold key_eqb. now rewrite (eqb_sym (fst a)), (eqb_sym (snd a)).
Qed.

Lemma key_eqb_trans (a b c : key) :
  key_eqb a b = true -> key_eqb b c = true -> key_eqb a c = true.
Proof.
  unfold key_eqb. rewrite !andb_true_iff. intros [H1 H2] [H3 H4].
  split; eapply eqb_trans; eassumption.
Qed.

End Equality.

(** ** Grouping by (grade, strandID) *)

Section Grouping.

Lemma known_false (ks : list key) (k : key) :
  known ks k = false <-> forall k', In k' ks -> key_eqb k' k = false.
Proof.
  unfold known. induction ks as [|k0 ks IH]; simpl.
  - split; [intros _ k' [] | reflexivity].
  - rewrite orb_false_iff, IH. split.
    + intros [H1 H2] k' [<-|Hin]; auto.
    + intros H. split; [apply H; now left | intros k' Hin; apply H; now right].
Qed.

Lemma known_true (ks : list key) (k : key) :
  known ks k = true <-> exists k', In k' ks /\ key_eqb k' k = true.
Proof. unfold known. apply existsb_exists. Qed.

Lemma map_fst_update (k : key) (v : json) (g : groups) :
  map fst (map (update k v) g) = map fst g.
Proof.
  rewrite map_map. apply map_ext. intros e. unfold update.
  now destruct (key_eqb (fst e) k).
Qed.

Lemma add_variant_update (k : key) (v : json) (g : groups) :
  distinct (map fst g) ->
  add_variant k v g =
  (map (update k v) g
   ++ if known (map fst g) k then [] else [(k, Py.set_add v [])])%list.
Proof.
  induction g as [|[k0 s] g IH]; intros Hd; [reflexivity|].
  destruct Hd as [Hk0 Hd]. cbn [add_variant map fst known existsb].
  unfold update at 1. cbn [fst snd].
  destruct (key_eqb k0 k) eqn:E; cbn [orb app].
  - f_equal. rewrite app_nil_r. symmetry.
    rewrite <- (map_id g) at 2. apply map_ext_in. intros e Hin.
    unfold update. replace (key_eqb (fst e) k) with false; [reflexivity|].
    symmetry. destruct (key_eqb (fst e) k) eqn:E'; [|reflexivity].
    rewrite <- (Hk0 (fst e)); [|now apply in_map].
    symmetry. eapply key_eqb_trans; [eassumption|]. now rewrite key_eqb_sym.
  - f_equal. now apply IH.
Qed.

Lemma distinct_snoc (ks : list key) (k : key) :
  distinct ks -> known ks k = false -> distinct (ks ++ [k]).
Proof.
  rewrite known_false.
  induction ks as [|k0 ks IH]; intros Hd Hk; simpl.
  - split; [intros k' [] | exact I].
  - destruct Hd as [H0 Hd]. split.
    + intros k' Hin. apply in_app_or in Hin as [Hin|[<-|[]]]; auto.
      apply Hk. now left.
    + apply IH; [assumption|]. intros k' Hin. apply Hk. now right.
Qed.

Lemma group_variants_cons (k : key) (l : json) (ls : list json) :
  group_variants k (l :: ls) =
  if key_eqb k (lesson_key l) then lesson_variant l :: group_variants k ls
  else group_variants k ls.
Proof.
  unfold group_variants. simpl. now destruct (key_eqb k (lesson_key l)).
Qed.

Lemma filter_ext_in' {A} (f g : A -> bool) (l : list A) :
  (forall a, In a l -> f a = g a) -> filter f l = filter g l.
Proof.
  induction l as [|a l IH]; intros H; simpl; [reflexivity|].
  rewrite (H a) by now left.
  rewrite IH; [reflexivity|]. intros b Hb. apply H. now right.
Qed.

Lemma filter_filter {A} (f g : A -> bool) (l : list A) :
  filter f (filter g l) = filter (fun a => g a && f a) l.
Proof.
  induction l as [|a l IH]; simpl; [reflexivity|].
  destruct (g a); simpl; [destruct (f a)|]; now rewrite IH.
Qed.

(** The dictionary after the loop: every entry already there has taken
    the variants of its group, and the new groups follow in the order of
    their first lesson. *)
Lemma grouping (lessons : list json) :
  forall g : groups,
    Forall (fun l => key_hashable (lesson_key l)) lessons ->
    distinct (map fst g) ->
    fold_left record_variant lessons g =
    (map (fun e => (fst e, set_of (group_variants (fst e) lessons) (snd e))) g
     ++ map (fun k => (k, set_of (group_variants k lessons) []))
          (filter (fun k => negb (known (map fst g) k))
             (group_keys (map lesson_key lessons))))%list.
Proof.
  induction lessons as [|l ls IH]; intros g Hh Hd.
  - cbn. rewrite app_nil_r. rewrite <- (map_id g) at 1.
    apply map_ext. now intros [k s].
  - inversion Hh as [|? ? Hl Hls]; subst.
    cbn [fold_left map group_keys]. unfold record_variant at 2.
    set (k := lesson_key l). set (v := lesson_variant l).
    rewrite (add_variant_update k v g Hd).
    assert (Hkeys : map fst
              (map (update k v) g ++
               (if known (map fst g) k then [] else [(k, Py.set_add v [])]))%list
            = (map fst g ++ if known (map fst g) k then [] else [k])%list).
    { rewrite map_app, map_fst_update. now destruct (known (map fst g) k). }
    rewrite IH; [|assumption|].
    2:{ rewrite Hkeys. destruct (known (map fst g) k) eqn:E.
        - now rewrite app_nil_r.
        - now apply distinct_snoc. }
    rewrite Hkeys, map_app, map_map, <- app_assoc. f_equal.
    + apply map_ext. intros e. rewrite group_variants_cons. fold k v.
      unfold update. destruct (key_eqb (fst e) k); reflexivity.
    + cbn [filter]. destruct (known (map fst g) k) eqn:E.
      * cbn [negb map app]. rewrite app_nil_r, filter_filter.
        apply known_true in E as (k0 & Hin0 & E0).
        assert (Hne : forall k', known (map fst g) k' = false ->
                                 key_eqb k k' = false).
        { intros k' Hk'. destruct (key_eqb k k') eqn:E'; [|reflexivity].
          rewrite known_false in Hk'. rewrite <- (Hk' k0 Hin0).
          symmetry. eapply key_eqb_trans; eassumption. }
        rewrite (filter_ext_in'
                   (fun k' => negb (key_eqb k k')
                              && negb (known (map fst g) k'))
                   (fun k' => negb (known (map fst g) k'))).
        2:{ intros k' _. destruct (known (map fst g) k') eqn:E'.
            - now rewrite andb_false_r.
            - now rewrite (Hne k' E'). }
        apply map_ext_in. intros k' Hin. apply filter_In in Hin as [_ Hin].
        apply negb_true_iff in Hin. rewrite group_variants_cons. fold k.
        now rewrite key_eqb_sym, (Hne k' Hin).
      * cbn [negb map app fst snd]. rewrite group_variants_cons. fold k v.
        rewrite (key_eqb_refl k Hl). cbn [set_of fold_left]. f_equal.
        rewrite filter_filter.
        rewrite (filter_ext_in'
                   (fun k' => negb (known (map fst g ++ [k]) k'))
                   (fun k' => negb (key_eqb k k')
                              && negb (known (map fst g) k'))).
        2:{ intros k' _. unfold known. rewrite existsb_app. cbn.
            rewrite orb_false_r, negb_orb. apply andb_comm. }
        apply map_ext_in. intros k' Hin. apply filter_In in Hin as [_ Hin].
        apply andb_true_iff in Hin as [Hin _].
        apply negb_true_iff in Hin. rewrite group_variants_cons. fold k.
        now rewrite key_eqb_sym, Hin.
Qed.

End Grouping.

(** ** The variant set of a group *)

Section VariantSets.

Lemma set_mem_add (x v : json) (s : list json) :
  Py.set_mem x (Py.set_add v s) = Py.set_mem x s || Py.eqb x v.
Proof.
  unfold Py.set_add, Py.set_mem.
  destruct (existsb (Py.eqb v) s) eqn:E.
  - destruct (Py.eqb x v) eqn:Exv; [|now rewrite orb_false_r].
    rewrite orb_true_r. apply existsb_exists.
    apply existsb_exists in E as (v' & Hin & Ev).
    exists v'. split; [assumption|]. eapply eqb_trans; eassumption.
  - rewrite existsb_app. simpl. now rewrite orb_false_r.
Qed.

Lemma set_mem_set_of (x : json) (vs s : list json) :
  Py.set_mem x (set_of vs s) = Py.set_mem x s || Py.set_mem x vs.
Proof.
  revert s. induction vs as [|v vs IH]; intros s; simpl.
  - now rewrite orb_false_r.
  - rewrite IH, set_mem_add. cbn [Py.set_mem existsb]. now rewrite orb_assoc.
Qed.

Lemma in_set_add (x v : json) (s : list json) :
  In x (Py.set_add v s) -> In x s \/ x = v.
Proof.
  unfold Py.set_add. destruct (Py.set_mem v s); [now left|].
  intros H. apply in_app_or in H as [H|[H|[]]]; auto.
Qed.

Lemma in_set_of (x : json) (vs s : list json) :
  In x (set_of vs s) -> In x s \/ In x vs.
Proof.
  revert s. induction vs as [|v vs IH]; intros s; simpl; [now left|].
  intros H. apply IH in H as [H|H]; [|now right; right].
  apply in_set_add in H as [H|H]; [now left | right; left; now symmetry].
Qed.

Lemma unique_add (v : json) (s : list json) :
  unique s -> unique (Py.set_add v s).
Proof.
  unfold Py.set_add. destruct (Py.set_mem v s) eqn:E; [easy|].
  induction s as [|x s IH]; simpl; [easy|].
  intros [Hx Hs]. cbn [Py.set_mem existsb] in E.
  apply orb_false_iff in E as [Evx E]. split.
  - unfold Py.set_mem. rewrite existsb_app. simpl.
    rewrite orb_false_r, (eqb_sym x v), Evx. now rewrite orb_false_r.
  - now apply IH.
Qed.

Lemma unique_set_of (vs s : list json) : unique s -> unique (set_of vs s).
Proof.
  revert s. induction vs as [|v vs IH]; intros s Hs; simpl; [assumption|].
  now apply IH, unique_add.
Qed.

Lemma unique_NoDup (s : list json) :
  unique s -> (forall v, In v s -> Py.eqb v v = true) -> NoDup s.
Proof.
  induction s as [|x s IH]; intros Hu Hr; [constructor|].
  destruct Hu as [Hx Hu]. constructor.
  - intros Hin. unfold Py.set_mem in Hx.
    assert (existsb (Py.eqb x) s = true) as E; [|congruence].
    apply existsb_exists. exists x. split; [assumption|].
    apply Hr. now left.
  - apply IH; [assumption|]. intros v Hv. apply Hr. now right.
Qed.

Lemma set_mem_required (v : json) :
  Py.set_mem v required = true <-> In v required.
Proof.
  unfold Py.set_mem. rewrite existsb_exists. split.
  - intros (r & Hin & E). unfold required in Hin.
    apply in_map_iff in Hin as (s & <- & Hs).
    rewrite eqb_sym in E. apply eqb_JStr in E. subst.
    unfold required. now apply in_map.
  - intros Hin. exists v. split; [assumption|].
    unfold required in Hin. apply in_map_iff in Hin as (s & <- & _).
    now apply eqb_JStr.
Qed.

Lemma set_mem_JStr (r : string) (s : list json) :
  Py.set_mem (JStr r) s = true <-> In (JStr r) s.
Proof.
  unfold Py.set_mem. rewrite existsb_exists. split.
  - intros (v & Hin & E). apply eqb_JStr in E. now subst.
  - intros Hin. exists (JStr r). split; [assumption|]. now apply eqb_JStr.
Qed.

Lemma NoDup_required : NoDup required.
Proof.
  unfold required, REQUIRED_VARIANTS. simpl.
  repeat constructor; simpl; intuition discriminate.
Qed.

Lemma set_eq_covers (vs : list json) :
  Forall hashable vs ->
  Py.set_eq (set_of vs []) REQUIRED_VARIANTS = true <-> covers vs.
Proof.
  intros Hh. set (s := set_of vs []).
  assert (Hin_s : forall v, In v s -> In v vs).
  { intros v Hv. apply in_set_of in Hv as [[]|Hv]. assumption. }
  assert (Hmem : forall v, In v vs -> Py.set_mem v s = true).
  { intros v Hv. unfold s. rewrite set_mem_set_of. cbn [Py.set_mem existsb orb].
    apply existsb_exists. exists v. split; [assumption|].
    apply eqb_refl. rewrite Forall_forall in Hh. now apply Hh. }
  assert (Hu : unique s) by now apply unique_set_of.
  unfold Py.set_eq. rewrite andb_true_iff, Nat.eqb_eq, forallb_forall.
  fold required. replace (List.length REQUIRED_VARIANTS)
    with (List.length required) by reflexivity.
  split.
  - intros [Hlen Hall].
    assert (Hincl : incl s required).
    { intros v Hv. now apply set_mem_required, Hall. }
    assert (Hnd : NoDup s).
    { apply unique_NoDup; [assumption|]. intros v Hv.
      apply Hincl in Hv. unfold required in Hv.
      apply in_map_iff in Hv as (r & <- & _). now apply eqb_JStr. }
    assert (Hincl' : incl required s).
    { apply NoDup_length_incl; [assumption|lia|assumption]. }
    intros v. split.
    + intros Hv. apply Hmem in Hv. unfold Py.set_mem in Hv.
      apply existsb_exists in Hv as (v' & Hv' & E).
      apply Hincl in Hv'. pose proof Hv' as Hreq. unfold required in Hv'.
      apply in_map_iff in Hv' as (r & <- & _).
      rewrite eqb_sym in E. apply eqb_JStr in E. now subst.
    + intros Hv. apply Hin_s. now apply Hincl'.
  - intros Hc.
    assert (Hincl : incl s required).
    { intros v Hv. now apply Hc, Hin_s. }
    assert (Hincl' : incl required s).
    { intros v Hv. pose proof Hv as Hreq. unfold required in Hv.
      apply in_map_iff in Hv as (r & <- & _).
      apply set_mem_JStr, Hmem. now apply Hc. }
    assert (Hnd : NoDup s).
    { apply unique_NoDup; [assumption|]. intros v Hv.
      apply Hincl in Hv. unfold required in Hv.
      apply in_map_iff in Hv as (r & <- & _). now apply eqb_JStr. }
    split.
    + apply Nat.le_antisymm; apply NoDup_incl_length;
        auto using NoDup_required.
    + intros v Hv. now apply set_mem_required, Hincl.
Qed.

(** The missing variants in sorted order, whatever the hash seed. *)
Lemma sorted_missing (seed : Py.hash_seed) (vs : list json) :
  Py.sorted_str
    (Py.str_set_iter seed (Py.set_diff REQUIRED_VARIANTS (set_of vs []))) =
  filter (fun r => negb (Py.set_mem (JStr r) vs))
    ["challenge"; "practice"; "remediation"].
Proof.
  rewrite sorted_str_set_iter. unfold Py.set_diff, REQUIRED_VARIANTS.
  cbn [filter]. rewrite !set_mem_set_of. cbn [Py.set_mem existsb orb].
  destruct (Py.set_mem (JStr "practice") vs),
    (Py.set_mem (JStr "challenge") vs),
    (Py.set_mem (JStr "remediation") vs); reflexivity.
Qed.

End VariantSets.

(** ** The violation list, as lesson blocks followed by coverage messages *)

Section Decomposition.

Variable seed : Py.hash_seed.

Lemma coverage_loop_frame (g : groups) :
  forall e : list string,
    fold_left (coverage_body seed) g e =
    (e ++ flat_map (coverage_body seed []) g)%list.
Proof.
  induction g as [|[[grade strand] s] g IH]; intros e; simpl.
  - now rewrite app_nil_r.
  - rewrite IH. destruct (Py.set_eq s REQUIRED_VARIANTS); simpl.
    + reflexivity.
    + now rewrite <- app_assoc.
Qed.

Lemma coverage_body_set_of (k : key) (seen : list json) :
  coverage_body seed [] (k, set_of seen []) = coverage_errors k seen.
Proof.
  unfold coverage_body, coverage_errors. destruct k as [grade strand].
  destruct (Py.set_eq (set_of seen []) REQUIRED_VARIANTS); cbn [negb app];
    [reflexivity|].
  now rewrite sorted_missing.
Qed.

Lemma lesson_errors_hashable (lesson : json) (blk : list string) :
  lesson_errors seed lesson = Ok blk ->
  key_hashable (lesson_key lesson) /\ hashable (lesson_variant lesson).
Proof.
  destruct lesson; try discriminate.
  unfold lesson_errors, lesson_body, lesson_key, lesson_variant, field,
    key_hashable, hashable.
  cbn [Py.get bind fst snd].
  repeat match goal with
         | |- context [Py.lookup ?k fields] =>
             generalize (Py.lookup k fields); intro
         end.
  repeat match goal with
         | |- context [Py.hash ?v] =>
             destruct (Py.hash v) as [[]|]; cbn [bind]; try discriminate
         end.
  auto.
Qed.

Lemma map_result_Forall2 {A B} (f : A -> result B) (l : list A) :
  forall l', map_result f l = Ok l' <-> Forall2 (fun a b => f a = Ok b) l l'.
Proof.
  induction l as [|a l IH]; intros l'; simpl.
  - split; [intros [= <-]; constructor | intros H; now inversion H].
  - destruct (f a) as [b|] eqn:E; simpl.
    + destruct (map_result f l) as [bs|]; simpl.
      * split.
        -- intros [= <-]. constructor; [assumption|]. now apply IH.
        -- intros H. inversion H as [|? b' ? bs' Hb Hbs]; subst.
           apply IH in Hbs. congruence.
      * split; [discriminate|]. intros H.
        inversion H as [|? b' ? bs' Hb Hbs]; subst.
        apply IH in Hbs. discriminate.
    + split; [discriminate|]. intros H. inversion H; congruence.
Qed.

Lemma blocks_hashable (lessons : list json) (blocks : list (list string)) :
  map_result (lesson_errors seed) lessons = Ok blocks ->
  Forall (fun l => key_hashable (lesson_key l)) lessons
  /\ Forall (fun l => hashable (lesson_variant l)) lessons.
Proof.
  rewrite map_result_Forall2.
  induction 1 as [|l blk ls blks Hl _ [IH1 IH2]]; [now split|].
  apply lesson_errors_hashable in Hl as [Hk Hv].
  split; now constructor.
Qed.

Lemma flat_map_map {A B C} (f : B -> list C) (g : A -> B) (l : list A) :
  flat_map f (map g l) = flat_map (fun a => f (g a)) l.
Proof. induction l as [|a l IH]; simpl; [reflexivity | now rewrite IH]. Qed.

Lemma filter_all {A} (l : list A) : filter (fun _ => true) l = l.
Proof. induction l as [|a l IH]; simpl; [reflexivity | now rewrite IH]. Qed.

(** The value of [validate_lessons]: the blocks of the lessons in document
    order, then the coverage messages in the order of the group keys. *)
Lemma validate_lessons_eq (catalog : json) :
  validate_lessons seed catalog =
  (lessons <- catalog_lessons catalog ;;
   blocks <- map_result (lesson_errors seed) lessons ;;
   Ok (List.concat blocks
       ++ flat_map (fun k => coverage_errors k (group_variants k lessons))
            (group_keys (map lesson_key lessons)))%list).
Proof.
  unfold validate_lessons, catalog_lessons.
  destruct (Py.get catalog "lessons" (JArr [])) as [lv|]; cbn [bind];
    [|reflexivity].
  destruct (Py.iter lv) as [lessons|]; cbn [bind]; [|reflexivity].
  rewrite lesson_loop_frame.
  destruct (map_result (lesson_errors seed) lessons) as [blocks|] eqn:E;
    cbn [bind]; [|reflexivity].
  apply blocks_hashable in E as [Hk _].
  rewrite coverage_loop_frame, (grouping lessons [] Hk I).
  cbn [map app known existsb negb]. rewrite filter_all, flat_map_map.
  do 2 f_equal. apply flat_map_ext. intros k. apply coverage_body_set_of.
Qed.

End Decomposition.

(** ** The block of one lesson, rule by rule *)

Section LessonBlock.

Variable seed : Py.hash_seed.

Lemma append_if_check (c : bool) (m : string) (e : list string) :
  append_if c m e = (e ++ check c m)%list.
Proof. destruct c; simpl; [reflexivity | now rewrite app_nil_r]. Qed.

Lemma item_errors_eq (lid : json) (items : list json) :
  forall n : nat,
    item_errors lid items n =
    if forallb is_dict items then Ok (item_checks lid n items)
    else Raise AttributeError.
Proof.
  unfold item_errors.
  induction items as [|item items IH]; intros n; [reflexivity|].
  cbn [for_each forallb item_checks].
  destruct item; try reflexivity.
  unfold item_body at 1. cbn [Py.get bind is_dict andb field].
  rewrite !append_if_check. cbn [app].
  rewrite <- (app_nil_r (check _ _ ++ check _ _)%list).
  rewrite item_loop_frame. cbn [bind].
  specialize (IH (S n)).
  destruct (for_each (item_body lid) items ([], S n)) as [[e m]|];
    cbn [bind fst snd] in *;
    destruct (forallb is_dict items); try discriminate.
  - injection IH as ->. now rewrite <- app_assoc.
  - congruence.
Qed.

Lemma required_repr :
  Py.repr (JArr (map JStr (Py.sorted_str REQUIRED_VARIANTS))) =
  "['challenge', 'practice', 'remediation']".
Proof. reflexivity. Qed.

(** One pass of the loop body on a dictionary: the exceptions it can
    raise, in order, and the messages it appends. *)
Lemma lesson_errors_eq (fields : list (string * json)) :
  let lesson := JObj fields in
  lesson_errors seed lesson =
  (_ <- Py.hash (fst (lesson_key lesson)) ;;
   _ <- Py.hash (snd (lesson_key lesson)) ;;
   _ <- Py.hash (lesson_variant lesson) ;;
   _ <- Py.hash (lesson_difficulty lesson) ;;
   has_score <- Py.contains "scoreThreshold" (mastery lesson) ;;
   has_minimum <- Py.contains "minimumItems" (mastery lesson) ;;
   items <- Py.iter (lesson_items lesson) ;;
   if forallb is_dict items
   then Ok (lesson_checks lesson has_score has_minimum
            ++ item_checks (lesson_id lesson) 0 items)%list
   else Raise AttributeError).
Proof.
  intros lesson. unfold lesson_errors, lesson_body.
  rewrite sorted_str_set_iter, required_repr.
  unfold lesson, lesson_checks, rule_message, mastery, lesson_key,
    lesson_variant, lesson_difficulty, lesson_items, lesson_id, field,
    Py.in_str_set.
  cbn [Py.get bind fst snd].
  repeat match goal with
         | |- context [Py.lookup ?k fields] =>
             generalize (Py.lookup k fields); intro
         end.
  repeat match goal with
         | |- context [bind ?c _] =>
             match c with
             | for_each _ _ _ => fail 1
             | bind _ _ => fail 1
             | _ => destruct c; cbn [bind fst snd]; try reflexivity
             end
         end.
  rewrite !append_if_check. cbn [app].
  match goal with
  | |- context [for_each (item_body ?i) ?l (?e, 0)] =>
      rewrite <- (app_nil_r e), (item_loop_frame i); cbn [bind];
      pose proof (item_errors_eq i l 0) as H; unfold item_errors in H
  end.
  match goal with
  | |- context [for_each ?b ?l ?s] =>
      destruct (for_each b l s) as [[e1 n1]|]
  end; cbn [bind fst snd] in *;
    match goal with
    | |- context [forallb is_dict ?l] => destruct (forallb is_dict l)
    end; try discriminate.
  - injection H as ->. now rewrite <- !app_assoc.
  - congruence.
Qed.

End LessonBlock.

(** ** Documents on which the validator returns *)

Section WellShaped.

Variable seed : Py.hash_seed.

Lemma hash_is_hashable (v : json) :
  Py.hash v = if is_hashable v then Ok tt else Raise TypeError.
Proof. now destruct v. Qed.

Lemma contains_searchable (k : string) (lesson : json) :
  (exists b, Py.contains k (mastery lesson) = Ok b) <->
  searchable (field lesson "masteryRule" JNull) = true.
Proof.
  unfold mastery. destruct (field lesson "masteryRule" JNull)
    as [|[]|z| |[]|[]]; cbn; try (split; [reflexivity | eauto]);
    try (split; [intros [b H]; discriminate | discriminate]).
  - destruct (Z.eqb z 0) eqn:E; cbn.
    + split; [reflexivity | eauto].
    + split; [intros [b H]; discriminate | discriminate].
  - intros _. destruct (negb (s =? "")); cbn; eauto.
Qed.

Lemma iter_dict_sequence (v : json) :
  dict_sequence v = true <->
  exists items, Py.iter v = Ok items /\ forallb is_dict items = true.
Proof.
  destruct v as [| | |s|l|f]; cbn;
    try (split; [discriminate | intros (items & H & _); discriminate]).
  - destruct s as [|c s]; cbn.
    + split; [exists []; now split | reflexivity].
    + split; [discriminate | intros (items & [= <-] & H); discriminate].
  - split; [intros H; now exists l | intros (items & [= <-] & H); exact H].
  - destruct f as [|[k x] f]; cbn.
    + split; [exists []; now split | reflexivity].
    + split; [discriminate | intros (items & [= <-] & H); discriminate].
Qed.

Lemma lesson_errors_well_shaped (lesson : json) :
  (exists blk, lesson_errors seed lesson = Ok blk) <->
  well_shaped_lesson lesson = true.
Proof.
  unfold well_shaped_lesson.
  destruct lesson as [| | | | |fields];
    try (cbn; split; [intros [blk H]; discriminate | discriminate]).
  rewrite lesson_errors_eq. cbn [is_dict andb].
  rewrite !hash_is_hashable.
  destruct (is_hashable (fst (lesson_key (JObj fields)))); cbn [bind andb];
    [|split; [intros [blk H]; discriminate | discriminate]].
  destruct (is_hashable (snd (lesson_key (JObj fields)))); cbn [bind andb];
    [|split; [intros [blk H]; discriminate | discriminate]].
  destruct (is_hashable (lesson_variant (JObj fields))); cbn [bind andb];
    [|split; [intros [blk H]; discriminate | discriminate]].
  destruct (is_hashable (lesson_difficulty (JObj fields))); cbn [bind andb];
    [|split; [intros [blk H]; discriminate | discriminate]].
  pose proof (contains_searchable "scoreThreshold" (JObj fields)) as H1.
  pose proof (contains_searchable "minimumItems" (JObj fields)) as H2.
  pose proof (iter_dict_sequence (lesson_items (JObj fields))) as H3.
  destruct (searchable (field (JObj fields) "masteryRule" JNull)).
  - destruct H1 as [_ [b1 ->]]; [reflexivity|].
    destruct H2 as [_ [b2 ->]]; [reflexivity|]. cbn [bind andb].
    destruct (dict_sequence (lesson_items (JObj fields))).
    + destruct H3 as [(items & Hi & Hd) _]; [reflexivity|].
      rewrite Hi. cbn [bind]. rewrite Hd.
      split; [reflexivity | eauto].
    + split; [|discriminate]. intros [blk H].
      destruct (Py.iter (lesson_items (JObj fields))) as [items|] eqn:E;
        cbn [bind] in H; [|discriminate].
      destruct (forallb is_dict items) eqn:E'; [|discriminate].
      apply H3. now exists items.
  - cbn [andb]. split; [|discriminate]. intros [blk H].
    destruct (Py.contains "scoreThreshold" (mastery (JObj fields)))
      as [b|] eqn:E; [|discriminate].
    apply H1. now exists b.
Qed.

Lemma map_result_ok {A B} (f : A -> result B) (p : A -> bool) (l : list A) :
  (forall a, (exists b, f a = Ok b) <-> p a = true) ->
  (exists bs, map_result f l = Ok bs) <-> forallb p l = true.
Proof.
  intros Hp. induction l as [|a l IH]; cbn.
  - split; [reflexivity | eauto].
  - rewrite andb_true_iff, <- IH, <- Hp. split.
    + intros [bs H]. destruct (f a) as [b|]; [|discriminate].
      destruct (map_result f l) as [bs'|]; [|discriminate]. eauto.
    + intros [[b ->] [bs ->]]. cbn. eauto.
Qed.

Lemma validate_lessons_well_shaped (catalog : json) :
  (exists errs, validate_lessons seed catalog = Ok errs) <->
  well_shaped catalog = true.
Proof.
  rewrite validate_lessons_eq. unfold catalog_lessons, well_shaped.
  destruct catalog as [| | | | |fields];
    try (cbn; split; [intros [errs H]; discriminate | discriminate]).
  cbn [Py.get bind field].
  destruct (match Py.lookup "lessons" fields with
            | Some v => v
            | None => JArr []
            end) as [| | |s|lessons|f];
    try (cbn; split; [intros [errs H]; discriminate | discriminate]).
  - destruct s; cbn; (split; [try reflexivity | try discriminate]); eauto.
    intros [errs H]. discriminate.
  - cbn [Py.iter bind].
    rewrite <- (map_result_ok (lesson_errors seed) well_shaped_lesson lessons
                  lesson_errors_well_shaped).
    split.
    + intros [errs H].
      destruct (map_result (lesson_errors seed) lessons); [eauto|discriminate].
    + intros [bs ->]. cbn [bind]. eauto.
  - destruct f as [|[k x] f]; cbn;
      (split; [try reflexivity | try discriminate]); eauto.
    intros [errs H]. discriminate.
Qed.

End WellShaped.

(** ** The summary line *)

Section Summary.

Lemma insert_strs (x : string) (r : list string) :
  Py.insert (JStr x) (map JStr r) = Ok (map JStr (Py.insert_str x r)).
Proof.
  induction r as [|y r IH]; [reflexivity|].
  cbn [map Py.insert Py.insert_str Py.lt bind].
  destruct (String.ltb y x); [|reflexivity].
  now rewrite IH.
Qed.

Lemma sorted_strs (ss : list string) :
  Py.sorted (map JStr ss) = Ok (map JStr (Py.sorted_str ss)).
Proof.
  induction ss as [|x ss IH]; [reflexivity|].
  cbn [map Py.sorted]. rewrite IH. cbn [bind]. apply insert_strs.
Qed.

Lemma lt_raises (a b : json) (e : exn) : Py.lt a b = Raise e -> e = TypeError.
Proof. destruct a, b; cbn; congruence. Qed.

Lemma insert_perm (x : json) (l r : list json) :
  Py.insert x l = Ok r -> Permutation (x :: l) r.
Proof.
  revert r. induction l as [|y l IH]; intros r; cbn [Py.insert].
  - intros [= <-]. reflexivity.
  - destruct (Py.lt y x) as [[]|]; cbn [bind]; try discriminate.
    + destruct (Py.insert x l) as [r'|]; cbn [bind]; try discriminate.
      intros [= <-]. rewrite perm_swap. constructor. now apply IH.
    + intros [= <-]. reflexivity.
Qed.

Lemma insert_raises (x : json) (l : list json) (e : exn) :
  Py.insert x l = Raise e -> e = TypeError.
Proof.
  induction l as [|y l IH]; cbn [Py.insert]; [discriminate|].
  destruct (Py.lt y x) as [[]|e'] eqn:E; cbn [bind].
  - destruct (Py.insert x l); cbn [bind]; [discriminate|].
    intros [= <-]. now apply IH.
  - discriminate.
  - intros [= <-]. eapply lt_raises; eassumption.
Qed.

Lemma sorted_perm (l r : list json) :
  Py.sorted l = Ok r -> Permutation l r.
Proof.
  revert r. induction l as [|x l IH]; intros r; cbn [Py.sorted].
  - intros [= <-]. constructor.
  - destruct (Py.sorted l) as [r'|]; cbn [bind]; try discriminate.
    intros H. apply insert_perm in H. rewrite <- H. constructor. now apply IH.
Qed.

Lemma sorted_raises (l : list json) (e : exn) :
  Py.sorted l = Raise e -> e = TypeError.
Proof.
  induction l as [|x l IH]; cbn [Py.sorted]; [discriminate|].
  destruct (Py.sorted l) as [r'|e']; cbn [bind].
  - apply insert_raises.
  - intros [= <-]. now apply IH.
Qed.

Lemma strings_eq (l : list json) :
  Py.strings l =
  if forallb is_str l then Ok (str_values l) else Raise TypeError.
Proof.
  induction l as [|v l IH]; [reflexivity|].
  destruct v; try reflexivity.
  cbn [Py.strings forallb is_str andb str_values flat_map app].
  rewrite IH. fold (str_values l). now destruct (forallb is_str l).
Qed.

Lemma all_str_values (l : list json) :
  forallb is_str l = true -> l = map JStr (str_values l).
Proof.
  induction l as [|v l IH]; [reflexivity|].
  destruct v; try discriminate. cbn. intros H. f_equal. now apply IH.
Qed.

Lemma forallb_perm {A} (p : A -> bool) (l l' : list A) :
  Permutation l l' -> forallb p l = forallb p l'.
Proof.
  induction 1 as [|x l l' _ IH|x y l|l l' l'' _ IH1 _ IH2]; cbn.
  - reflexivity.
  - now rewrite IH.
  - now rewrite !andb_assoc, (andb_comm (p y)).
  - congruence.
Qed.

(** [sep.join(sorted(l))] *)
Lemma sorted_join (sep : string) (l : list json) :
  (grades <- Py.sorted l ;; Py.join sep grades) =
  if forallb is_str l
  then Ok (String.concat sep (Py.sorted_str (str_values l)))
  else Raise TypeError.
Proof.
  destruct (forallb is_str l) eqn:E.
  - rewrite (all_str_values l E), sorted_strs. cbn [bind]. unfold Py.join.
    rewrite strings_eq.
    assert (H : forall ss, forallb is_str (map JStr ss) = true
                           /\ str_values (map JStr ss) = ss).
    { induction ss as [|s ss [IH1 IH2]]; [now split|].
      cbn. split; [assumption|]. f_equal. exact IH2. }
    destruct (H (Py.sorted_str (str_values l))) as [-> ->].
    cbn [bind]. do 3 f_equal. symmetry.
    rewrite <- (all_str_values l E). reflexivity.
  - destruct (Py.sorted l) as [r|e] eqn:Es; cbn [bind].
    + unfold Py.join. rewrite strings_eq.
      rewrite <- (forallb_perm is_str l r (sorted_perm l r Es)), E.
      reflexivity.
    + f_equal. eapply sorted_raises; eassumption.
Qed.

Lemma sorted_join_set_iter (seed : Py.hash_seed) (sep : string)
  (s : list json) :
  (grades <- Py.sorted (Py.set_iter seed s) ;; Py.join sep grades) =
  (grades <- Py.sorted s ;; Py.join sep grades).
Proof.
  rewrite !sorted_join. unfold Py.set_iter.
  pose proof (shuffle_perm (seed s) s) as P.
  rewrite (forallb_perm is_str _ _ P).
  destruct (forallb is_str s); [|reflexivity].
  do 2 f_equal. apply sorted_str_perm.
  unfold str_values. now apply Permutation_flat_map.
Qed.

End Summary.

(** ** The validator and the script do not depend on the hash seed *)

Section SeedIndependence.

Variables seed seed' : Py.hash_seed.

Lemma lesson_errors_seed (lesson : json) :
  lesson_errors seed lesson = lesson_errors seed' lesson.
Proof.
  destruct lesson; try reflexivity. now rewrite !lesson_errors_eq.
Qed.

Lemma map_result_ext {A B} (f g : A -> result B) (l : list A) :
  (forall a, f a = g a) -> map_result f l = map_result g l.
Proof.
  intros H. induction l as [|a l IH]; [reflexivity|].
  cbn. now rewrite H, IH.
Qed.

Lemma validate_lessons_seed (catalog : json) :
  validate_lessons seed catalog = validate_lessons seed' catalog.
Proof.
  rewrite !validate_lessons_eq.
  destruct (catalog_lessons catalog) as [lessons|]; cbn [bind];
    [|reflexivity].
  now rewrite (map_result_ext _ _ lessons lesson_errors_seed).
Qed.

Lemma join_after_len {A} (sep : string) (l : list json) (n : nat)
  (k : nat -> string -> result A) :
  (grades <- Py.sorted l ;; n' <- Ok n ;;
   joined <- Py.join sep grades ;; k n' joined) =
  (joined <- (grades <- Py.sorted l ;; Py.join sep grades) ;; k n joined).
Proof. destruct (Py.sorted l); reflexivity. Qed.

Lemma len_iter (v : json) (l : list json) :
  Py.iter v = Ok l -> exists n, Py.len v = Ok n.
Proof. destruct v; cbn; try discriminate; eauto. Qed.

Lemma main_seed (catalog : json) : main seed catalog = main seed' catalog.
Proof.
  unfold main. rewrite validate_lessons_seed.
  destruct (validate_lessons seed' catalog) as [[|m errs]|]; cbn [bind];
    try reflexivity.
  destruct (Py.get catalog "lessons" (JArr [])) as [lessons|]; cbn [bind];
    [|reflexivity].
  destruct (Py.iter lessons) as [elems|] eqn:E; cbn [bind]; [|reflexivity].
  destruct (for_each grade_set_body elems []) as [gs|]; cbn [bind];
    [|reflexivity].
  destruct (len_iter lessons elems E) as [n ->].
  now rewrite !join_after_len, !sorted_join_set_iter.
Qed.

End SeedIndependence.

(** ** Coverage of the (grade, strandID) groups *)

Section CoverageFacts.

Lemma missing_sorted (seen : list json) :
  StronglySorted (fun a b => String.ltb a b = true) (missing_variants seen).
Proof.
  unfold missing_variants, sorted_required. cbn [filter].
  destruct (Py.set_mem (JStr "challenge") seen),
    (Py.set_mem (JStr "practice") seen),
    (Py.set_mem (JStr "remediation") seen); cbn [negb];
    repeat constructor.
Qed.

Lemma missing_in (seen : list json) (r : string) :
  In r (missing_variants seen) <->
  In r REQUIRED_VARIANTS /\ ~ In (JStr r) seen.
Proof.
  unfold missing_variants. rewrite filter_In, negb_true_iff.
  rewrite <- set_mem_JStr, not_true_iff_false.
  unfold sorted_required, REQUIRED_VARIANTS. cbn [In]. tauto.
Qed.

Lemma coverage_errors_rule (lessons : list json) (k : key) :
  Forall (fun l => hashable (lesson_variant l)) lessons ->
  coverage_rule lessons k (coverage_errors k (group_variants k lessons)).
Proof.
  intros Hh. unfold coverage_rule, coverage_errors.
  assert (Hs : Forall hashable (group_variants k lessons)).
  { unfold group_variants. apply Forall_forall. intros v Hv.
    apply in_map_iff in Hv as (l & <- & Hl). apply filter_In in Hl as [Hl _].
    rewrite Forall_forall in Hh. now apply Hh. }
  pose proof (set_eq_covers _ Hs) as Hc.
  destruct (Py.set_eq (set_of (group_variants k lessons) [])
              REQUIRED_VARIANTS).
  - split; [split; [reflexivity | intros _; now apply Hc]|].
    intros Hn. exfalso. apply Hn. now apply Hc.
  - split; [split; [|discriminate]|].
    + intros H. apply Hc in H. discriminate.
    + intros _. exists (missing_variants (group_variants k lessons)).
      split; [reflexivity|]. split; [apply missing_sorted|].
      apply missing_in.
Qed.

Lemma group_keys_complete (ks : list key) (k : key) :
  In k ks -> key_hashable k ->
  exists k', In k' (group_keys ks) /\ key_eqb k' k = true.
Proof.
  intros Hin Hk. induction ks as [|k0 ks IH]; [destruct Hin|].
  cbn [group_keys]. destruct Hin as [->|Hin].
  - exists k. split; [now left | now apply key_eqb_refl].
  - destruct (IH Hin) as (k' & Hk' & E).
    destruct (key_eqb k0 k') eqn:E0.
    + exists k0. split; [now left|]. eapply key_eqb_trans; eassumption.
    + exists k'. split; [|assumption]. right.
      apply filter_In. split; [assumption|]. now rewrite E0.
Qed.

End CoverageFacts.

(** ** The state after the first loop *)

Section LoopInvariant.

Lemma Forall2_map_right {A B} (R : A -> B -> Prop) (f : A -> B)
  (l : list A) :
  (forall a, In a l -> R a (f a)) -> Forall2 R l (map f l).
Proof.
  induction l as [|a l IH]; intros H; cbn; constructor.
  - apply H. now left.
  - apply IH. intros b Hb. apply H. now right.
Qed.

(** What the first loop leaves when the validator returns. *)
Lemma validate_lessons_inv (seed : Py.hash_seed) (catalog : json)
  (errs : list string) :
  validate_lessons seed catalog = Ok errs ->
  exists lessons blocks,
    catalog_lessons catalog = Ok lessons
    /\ map_result (lesson_errors seed) lessons = Ok blocks
    /\ for_each (lesson_body seed) lessons ([], []) =
       Ok (List.concat blocks,
           map (fun k => (k, set_of (group_variants k lessons) []))
             (group_keys (map lesson_key lessons)))
    /\ errs =
       (List.concat blocks
        ++ flat_map (fun k => coverage_errors k (group_variants k lessons))
             (group_keys (map lesson_key lessons)))%list.
Proof.
  rewrite validate_lessons_eq.
  destruct (catalog_lessons catalog) as [lessons|]; cbn [bind];
    [|discriminate].
  destruct (map_result (lesson_errors seed) lessons) as [blocks|] eqn:E;
    cbn [bind]; [|discriminate].
  intros [= <-]. exists lessons, blocks.
  split; [reflexivity|]. split; [exact E|]. split; [|reflexivity].
  rewrite lesson_loop_frame, E. cbn [bind app].
  destruct (blocks_hashable seed lessons blocks E) as [Hk _].
  rewrite (grouping lessons [] Hk I). cbn [map app known existsb negb].
  now rewrite filter_all.
Qed.

End LoopInvariant.

(** ** The messages of the broken rules *)

Section RuleFacts.

Lemma set_mem_strs (v : json) (names : list string) :
  Py.set_mem v (map JStr names) = true <-> In v (map JStr names).
Proof.
  unfold Py.set_mem. rewrite existsb_exists. split.
  - intros (r & Hin & E). pose proof Hin as Hin'.
    apply in_map_iff in Hin as (s & <- & Hs).
    rewrite eqb_sym in E. apply eqb_JStr in E. now subst.
  - intros Hin. exists v. split; [assumption|].
    apply in_map_iff in Hin as (s & <- & _). now apply eqb_JStr.
Qed.

Lemma item_checks_hints (lid : json) (items : list json) :
  forall (n i : nat) (item : json),
    nth_error items i = Some item ->
    Py.truthy (field item "hints" JNull) = false ->
    In (item_prefix lid (n + i) ++ ": must include at least one hint")
      (item_checks lid n items).
Proof.
  induction items as [|x items IH]; intros n [|i] item Hnth Hf;
    try discriminate; cbn [item_checks nth_error] in *.
  - injection Hnth as ->. rewrite Hf, Nat.add_0_r. now left.
  - rewrite <- Nat.add_succ_comm. do 2 (apply in_or_app; right).
    now apply (IH (S n) i item).
Qed.

Lemma item_checks_scaffolds (lid : json) (items : list json) :
  forall (n i : nat) (item : json),
    nth_error items i = Some item ->
    Py.truthy (field item "scaffolds" JNull) = false ->
    In (item_prefix lid (n + i) ++ ": must include at least one scaffold")
      (item_checks lid n items).
Proof.
  induction items as [|x items IH]; intros n [|i] item Hnth Hf;
    try discriminate; cbn [item_checks nth_error] in *.
  - injection Hnth as ->. rewrite Hf, Nat.add_0_r.
    apply in_or_app; right. now left.
  - rewrite <- Nat.add_succ_comm. do 2 (apply in_or_app; right).
    now apply (IH (S n) i item).
Qed.

Lemma item_checks_nil (lid : json) (items : list json) :
  (forall i item, nth_error items i = Some item ->
                  Py.truthy (field item "hints" JNull) = true
                  /\ Py.truthy (field item "scaffolds" JNull) = true) ->
  forall n, item_checks lid n items = [].
Proof.
  induction items as [|x items IH]; intros H n; [reflexivity|].
  cbn [item_checks]. destruct (H 0 x eq_refl) as [-> ->]. cbn [negb check app].
  apply IH. intros i item Hi. now apply (H (S i)).
Qed.

(** The block of a lesson on which the loop body returns. *)
Lemma lesson_block (seed : Py.hash_seed) (lesson : json)
  (block : list string) :
  lesson_errors seed lesson = Ok block ->
  exists has_score has_minimum items,
    Py.contains "scoreThreshold" (mastery lesson) = Ok has_score
    /\ Py.contains "minimumItems" (mastery lesson) = Ok has_minimum
    /\ Py.iter (lesson_items lesson) = Ok items
    /\ block = (lesson_checks lesson has_score has_minimum
                ++ item_checks (lesson_id lesson) 0 items)%list.
Proof.
  destruct lesson as [| | | | |fields]; try discriminate.
  rewrite lesson_errors_eq.
  repeat match goal with
         | |- context [bind ?c _] =>
             match c with
             | bind _ _ => fail 1
             | _ => destruct c; cbn [bind]; try discriminate
             end
         end.
  match goal with
  | |- context [forallb is_dict ?l] => destruct (forallb is_dict l)
  end; [|discriminate].
  intros [= <-]. eauto 10.
Qed.

Lemma rule_reported (lesson : json) (has_score has_minimum : bool)
  (items : list json) (r : rule) :
  Py.contains "scoreThreshold" (mastery lesson) = Ok has_score ->
  Py.contains "minimumItems" (mastery lesson) = Ok has_minimum ->
  Py.iter (lesson_items lesson) = Ok items ->
  violated r lesson ->
  In (rule_message r lesson)
    (lesson_checks lesson has_score has_minimum
     ++ item_checks (lesson_id lesson) 0 items)%list.
Proof.
  intros H1 H2 H3 Hv. unfold lesson_checks. rewrite !in_app_iff.
  destruct r; cbn [violated] in Hv.
  - rewrite Hv. cbn. auto.
  - assert (E : Py.set_mem (lesson_variant lesson) required = false).
    { apply not_true_iff_false. intros E. now apply set_mem_required in E. }
    rewrite E. cbn. auto.
  - assert (E : Py.set_mem (lesson_difficulty lesson)
                  (map JStr REQUIRED_DIFFICULTIES) = false).
    { apply not_true_iff_false. intros E. now apply set_mem_strs in E. }
    rewrite E. cbn [negb check In]. auto 10.
  - rewrite Hv. cbn [negb check In]. auto 10.
  - rewrite Hv. cbn [negb check In]. auto 10.
  - rewrite H1 in Hv. injection Hv as ->. cbn [negb check In]. auto 10.
  - rewrite H2 in Hv. injection Hv as ->. cbn [negb check In]. auto 12.
  - destruct Hv as (items' & item & Hi & Hnth & Hf).
    rewrite H3 in Hi. injection Hi as <-.
    right. now apply (item_checks_hints _ items 0 i item).
  - destruct Hv as (items' & item & Hi & Hnth & Hf).
    rewrite H3 in Hi. injection Hi as <-.
    right. now apply (item_checks_scaffolds _ items 0 i item).
Qed.

Lemma Forall2_in_left {A B} (R : A -> B -> Prop) (l : list A) (l' : list B)
  (a : A) :
  Forall2 R l l' -> In a l -> exists b, In b l' /\ R a b.
Proof.
  induction 1 as [|x y l l' Hxy _ IH]; intros Hin; [destruct Hin|].
  destruct Hin as [->|Hin].
  - exists y. split; [now left | assumption].
  - destruct (IH Hin) as (b & Hb & Hab). exists b. split; [now right|assumption].
Qed.

End RuleFacts.

(** ** The failure report *)

Section FailureReport.


End FailureReport.

(** * Properties of the validator *)

(** C1. For every (grade, strandID) group of the dictionary built from the
    lessons, the validator reports a coverage violation exactly when the
    variants seen in the group are not exactly practice, challenge and
    remediation; the message names the group and lists the required
    variants that were not seen, in sorted order. *)
Theorem coverage_violation_iff (seed : Py.hash_seed) (catalog : json)
  (errs : list string) :
  validate_lessons seed catalog = Ok errs ->
  exists lessons per_lesson variants_by_strand coverage,
    catalog_lessons catalog = Ok lessons
    /\ for_each (lesson_body seed) lessons ([], []) =
       Ok (per_lesson, variants_by_strand)
    /\ variants_by_strand =
       map (fun k => (k, set_of (group_variants k lessons) []))
         (group_keys (map lesson_key lessons))
    /\ errs = (per_lesson ++ List.concat coverage)%list
    /\ Forall2 (coverage_rule lessons) (map fst variants_by_strand) coverage.
Proof.
  intros H.
  destruct (validate_lessons_inv seed catalog errs H)
    as (lessons & blocks & Hl & Hb & Hloop & ->).
  exists lessons, (List.concat blocks),
    (map (fun k => (k, set_of (group_variants k lessons) []))
       (group_keys (map lesson_key lessons))),
    (map (fun k => coverage_errors k (group_variants k lessons))
       (group_keys (map lesson_key lessons))).
  repeat split; try assumption.
  - now rewrite flat_map_concat_map.
  - rewrite map_map. cbn [fst]. rewrite map_id.
    apply Forall2_map_right. intros k _.
    apply coverage_errors_rule.
    now destruct (blocks_hashable seed lessons blocks Hb).
Qed.

Lemma coverage_violation_iff_witness :
  exists lessons per_lesson variants_by_strand coverage,
    catalog_lessons (catalog_of [lesson_of "practice"; lesson_of "challenge"])
    = Ok lessons
    /\ for_each (lesson_body seed0) lessons ([], []) =
       Ok (per_lesson, variants_by_strand)
    /\ variants_by_strand =
       map (fun k => (k, set_of (group_variants k lessons) []))
         (group_keys (map lesson_key lessons))
    /\ ["3/S1 missing lesson variants: remediation"] =
       (per_lesson ++ List.concat coverage)%list
    /\ Forall2 (coverage_rule lessons) (map fst variants_by_strand) coverage.
Proof.
  apply (coverage_violation_iff seed0
           (catalog_of [lesson_of "practice"; lesson_of "challenge"])).
  reflexivity.
Defined.

(** C2, as the code has it.  A catalog whose only lesson has the variant
    "quiz" and breaks no other rule gets two violations: the message of
    the variant rule, which quotes "quiz" and the allowed set, and the
    coverage message of the lesson's group, which lists the three required
    variants as missing; the exit status is 1. *)
Theorem quiz_lesson_two_violations (seed : Py.hash_seed)
  (fields : list (string * json)) (lesson : json) :
  Py.lookup "lessons" fields = Some (JArr [lesson]) ->
  well_shaped_lesson lesson = true ->
  field lesson "variant" JNull = JStr "quiz" ->
  (forall r, r <> Variant -> ~ violated r lesson) ->
  validate_lessons seed (JObj fields) =
  Ok [Py.str (field lesson "id" (JStr "<missing>"))
      ++ ": variant 'quiz' is not one of ['challenge', 'practice', 'remediation']";
      Py.str (field lesson "grade" (JStr "<missing>")) ++ "/"
      ++ Py.str (field lesson "strandID" (JStr "<missing>"))
      ++ " missing lesson variants: challenge, practice, remediation"]
  /\ exit_status (main seed (JObj fields)) = 1%Z.
Proof.
  intros Hl Hw Hq Hr.
  assert (Hval : validate_lessons seed (JObj fields) =
    Ok [Py.str (field lesson "id" (JStr "<missing>"))
        ++ ": variant 'quiz' is not one of ['challenge', 'practice', 'remediation']";
        Py.str (field lesson "grade" (JStr "<missing>")) ++ "/"
        ++ Py.str (field lesson "strandID" (JStr "<missing>"))
        ++ " missing lesson variants: challenge, practice, remediation"]).
  { rewrite validate_lessons_eq. unfold catalog_lessons.
    cbn [Py.get bind]. rewrite Hl. cbn [Py.iter bind map_result].
    destruct (proj2 (lesson_errors_well_shaped seed lesson) Hw) as [block Hb].
    rewrite Hb. cbn [bind List.concat map group_keys filter flat_map].
    rewrite !app_nil_r.
    destruct (lesson_errors_hashable seed lesson block Hb) as [Hk _].
    unfold group_variants. cbn [filter]. rewrite (key_eqb_refl _ Hk).
    cbn [map]. unfold lesson_variant at 1. rewrite Hq.
    apply lesson_block in Hb as (h1 & h2 & items & H1 & H2 & H3 & ->).
    assert (E1 : h1 = true).
    { destruct h1; [reflexivity|]. now destruct (Hr ScoreThreshold). }
    assert (E2 : h2 = true).
    { destruct h2; [reflexivity|]. now destruct (Hr MinimumItems). }
    subst h1 h2.
    rewrite (item_checks_nil (lesson_id lesson) items).
    2:{ intros i item Hi. split.
        - destruct (Py.truthy (field item "hints" JNull)) eqn:E;
            [reflexivity|].
          destruct (Hr (ItemHints i)); [discriminate|]. cbn. eauto.
        - destruct (Py.truthy (field item "scaffolds" JNull)) eqn:E;
            [reflexivity|].
          destruct (Hr (ItemScaffolds i)); [discriminate|]. cbn. eauto. }
    unfold lesson_checks, lesson_variant. rewrite Hq.
    replace (Py.truthy (field lesson "objectives" JNull)) with true.
    2:{ destruct (Py.truthy (field lesson "objectives" JNull)) eqn:E;
          [reflexivity|]. now destruct (Hr Objectives). }
    replace (Py.truthy (field lesson "hints" JNull)) with true.
    2:{ destruct (Py.truthy (field lesson "hints" JNull)) eqn:E;
          [reflexivity|]. now destruct (Hr Hints). }
    replace (Py.truthy (field lesson "scaffolds" JNull)) with true.
    2:{ destruct (Py.truthy (field lesson "scaffolds" JNull)) eqn:E;
          [reflexivity|]. now destruct (Hr Scaffolds). }
    replace (Py.set_mem (lesson_difficulty lesson)
               (map JStr REQUIRED_DIFFICULTIES)) with true.
    2:{ destruct (Py.set_mem (lesson_difficulty lesson)
                    (map JStr REQUIRED_DIFFICULTIES)) eqn:E; [reflexivity|].
        destruct (Hr Difficulty); [discriminate|]. cbn [violated].
        intros Hin. apply set_mem_strs in Hin. congruence. }
    cbn [Py.set_mem existsb Py.eqb required map REQUIRED_VARIANTS String.eqb
           Ascii.eqb Bool.eqb orb negb check app].
    unfold rule_message, lesson_variant, lesson_id. rewrite Hq.
    reflexivity. }
  split; [exact Hval|].
  unfold main. rewrite Hval. reflexivity.
Qed.

Lemma quiz_lesson_two_violations_witness :
  validate_lessons seed0 (catalog_of [lesson_of "quiz"]) =
  Ok ["L-quiz: variant 'quiz' is not one of ['challenge', 'practice', 'remediation']";
      "3/S1 missing lesson variants: challenge, practice, remediation"]
  /\ exit_status (main seed0 (catalog_of [lesson_of "quiz"])) = 1%Z.
Proof.
  apply (quiz_lesson_two_violations seed0
           [("lessons", JArr [lesson_of "quiz"])] (lesson_of "quiz")).
  - reflexivity.
  - reflexivity.
  - reflexivity.
  - intros r Hne Hv. destruct r; cbn in Hv; try discriminate.
    + now apply Hne.
    + apply Hv. do 2 right. now left.
    + destruct Hv as (items & item & [= <-] & Hnth & _). now destruct i.
    + destruct Hv as (items & item & [= <-] & Hnth & _). now destruct i.
Defined.

(** C2 as stated fails: the catalog with the single lesson "quiz" does not
    give exactly one violation. *)
Lemma quiz_lesson_not_one_violation :
  ~ exists m, validate_lessons seed0 (catalog_of [lesson_of "quiz"]) = Ok [m].
Proof. intros [m H]. vm_compute in H. discriminate. Qed.

(** C3, as the code has it.  On every parsed document of the catalog shape
    the validator returns a list of strings and raises nothing: the
    document is an object, its "lessons" an array of objects (or absent),
    and in each lesson grade, strandID, variant and difficulty are scalars
    or absent, masteryRule is not [true] or a number other than zero, and
    items is an array of objects (or absent). *)
Theorem validator_returns_on_well_shaped (seed : Py.hash_seed)
  (catalog : json) :
  well_shaped catalog = true ->
  exists errs, validate_lessons seed catalog = Ok errs.
Proof. apply validate_lessons_well_shaped. Qed.

Lemma validator_returns_on_well_shaped_witness :
  exists errs,
    validate_lessons seed0
      (catalog_of [lesson_of "practice"; JObj [("items", JArr [JObj []])]])
    = Ok errs.
Proof.
  apply (validator_returns_on_well_shaped seed0
           (catalog_of [lesson_of "practice"; JObj [("items", JArr [JObj []])]])).
  reflexivity.
Defined.

(** C3 as stated fails: a JSON document that is an array makes the
    validator raise. *)
Lemma validator_raises_on_array :
  validate_lessons seed0 (JArr []) = Raise AttributeError
  /\ ~ exists errs, validate_lessons seed0 (JArr []) = Ok errs.
Proof. split; [reflexivity | intros [errs H]; discriminate]. Qed.

(** C4 at the failing input: three lessons that break no rule and have no
    grade give an empty violation list, and yet the exit status is 1. *)
Theorem ungraded_catalog_exit_status (seed : Py.hash_seed) :
  validate_lessons seed ungraded_catalog = Ok []
  /\ exit_status (main seed ungraded_catalog) = 1%Z.
Proof.
  rewrite (validate_lessons_seed seed seed0), (main_seed seed seed0).
  split; reflexivity.
Qed.

(** C5. The rules on a lesson are checked one after the other without
    stopping: whenever the validator returns, every rule that a lesson of
    the catalog breaks has its message in the violation list, whatever
    other rules the lesson breaks. *)
Theorem every_broken_rule_reported (seed : Py.hash_seed) (catalog : json)
  (errs : list string) (lessons : list json) (lesson : json) (r : rule) :
  validate_lessons seed catalog = Ok errs ->
  catalog_lessons catalog = Ok lessons ->
  In lesson lessons ->
  violated r lesson ->
  In (rule_message r lesson) errs.
Proof.
  intros H Hl Hin Hv.
  destruct (validate_lessons_inv seed catalog errs H)
    as (lessons' & blocks & Hl' & Hb & _ & ->).
  rewrite Hl in Hl'. injection Hl' as <-.
  apply map_result_Forall2 in Hb.
  destruct (Forall2_in_left _ _ _ lesson Hb Hin) as (block & Hblock & Hle).
  apply lesson_block in Hle as (h1 & h2 & items & H1 & H2 & H3 & ->).
  apply in_or_app. left. apply in_concat.
  eexists. split; [exact Hblock|]. now apply rule_reported.
Qed.

Lemma every_broken_rule_reported_witness :
  In (rule_message (ItemScaffolds 1)
        (JObj [("id", JStr "L1"); ("items", JArr [JObj []; JObj []])]))
    ["L1: objectives must not be empty";
     "L1: variant 'None' is not one of ['challenge', 'practice', 'remediation']";
     "L1: difficulty 'None' is not recognised";
     "L1: must provide at least one lesson hint";
     "L1: must provide at least one lesson scaffold";
     "L1: masteryRule missing scoreThreshold";
     "L1: masteryRule missing minimumItems";
     "L1 item 1: must include at least one hint";
     "L1 item 1: must include at least one scaffold";
     "L1 item 2: must include at least one hint";
     "L1 item 2: must include at least one scaffold";
     "<missing>/<missing> missing lesson variants: challenge, practice, remediation"].
Proof.
  apply (every_broken_rule_reported seed0
           (catalog_of
              [JObj [("id", JStr "L1"); ("items", JArr [JObj []; JObj []])]])
           _
           [JObj [("id", JStr "L1"); ("items", JArr [JObj []; JObj []])]]).
  - reflexivity.
  - reflexivity.
  - now left.
  - cbn. exists [JObj []; JObj []], (JObj []). repeat split.
Defined.

(** C6. The violation list is the blocks of the lessons in document order,
    each block being what the loop body reports for that lesson, followed
    by the coverage messages of the groups in the order of the first
    occurrence of each (grade, strandID) key. *)
Theorem violations_in_order (seed : Py.hash_seed) (catalog : json)
  (errs : list string) :
  validate_lessons seed catalog = Ok errs ->
  exists lessons blocks coverage,
    catalog_lessons catalog = Ok lessons
    /\ Forall2 (fun lesson block => lesson_errors seed lesson = Ok block)
         lessons blocks
    /\ Forall2 (fun k cov => cov = coverage_errors k (group_variants k lessons))
         (group_keys (map lesson_key lessons)) coverage
    /\ errs = (List.concat blocks ++ List.concat coverage)%list.
Proof.
  intros H.
  destruct (validate_lessons_inv seed catalog errs H)
    as (lessons & blocks & Hl & Hb & _ & ->).
  exists lessons, blocks,
    (map (fun k => coverage_errors k (group_variants k lessons))
       (group_keys (map lesson_key lessons))).
  repeat split; try assumption.
  - now apply map_result_Forall2.
  - now apply Forall2_map_right.
  - now rewrite flat_map_concat_map.
Qed.

Lemma violations_in_order_witness :
  exists lessons blocks coverage,
    catalog_lessons
      (catalog_of [lesson_of "quiz"; JObj [("grade", JInt 4)]]) = Ok lessons
    /\ Forall2 (fun lesson block => lesson_errors seed0 lesson = Ok block)
         lessons blocks
    /\ Forall2 (fun k cov => cov = coverage_errors k (group_variants k lessons))
         (group_keys (map lesson_key lessons)) coverage
    /\ ["L-quiz: variant 'quiz' is not one of ['challenge', 'practice', 'remediation']";
        "<missing>: objectives must not be empty";
        "<missing>: variant 'None' is not one of ['challenge', 'practice', 'remediation']";
        "<missing>: difficulty 'None' is not recognised";
        "<missing>: must provide at least one lesson hint";
        "<missing>: must provide at least one lesson scaffold";
        "<missing>: masteryRule missing scoreThreshold";
        "<missing>: masteryRule missing minimumItems";
        "3/S1 missing lesson variants: challenge, practice, remediation";
        "4/<missing> missing lesson variants: challenge, practice, remediation"]
       = (List.concat blocks ++ List.concat coverage)%list.
Proof.
  apply (violations_in_order seed0
           (catalog_of [lesson_of "quiz"; JObj [("grade", JInt 4)]])).
  reflexivity.
Defined.

(** C7. Two runs on the same document give the same violation list, the
    same output and the same exit status, whatever order the sets of each
    run are iterated in. *)
Theorem validation_deterministic (seed seed' : Py.hash_seed) (catalog : json) :
  validate_lessons seed catalog = validate_lessons seed' catalog
  /\ stdout (main seed catalog) = stdout (main seed' catalog)
  /\ exit_status (main seed catalog) = exit_status (main seed' catalog).
Proof.
  rewrite (validate_lessons_seed seed seed'), (main_seed seed seed').
  repeat split.
Qed.

(** C8 at the failing input: on the same catalog without grades the
    violation list is empty, and [main] raises [TypeError] when it joins the
    grades, so no summary line is printed. *)
Theorem ungraded_catalog_no_summary (seed : Py.hash_seed) :
  validate_lessons seed ungraded_catalog = Ok []
  /\ main seed ungraded_catalog = Raise TypeError
  /\ stdout (main seed ungraded_catalog) = [].
Proof.
  rewrite (validate_lessons_seed seed seed0), (main_seed seed seed0).
  repeat split.
Qed.

(** C9. A catalog without the key "lessons", or whose "lessons" is the
    empty array, has no violation, and the script prints the summary of
    zero lessons and exits with status 0. *)
Theorem empty_catalog_passes (seed : Py.hash_seed)
  (fields : list (string * json)) :
  Py.lookup "lessons" fields = None
  \/ Py.lookup "lessons" fields = Some (JArr []) ->
  validate_lessons seed (JObj fields) = Ok []
  /\ main seed (JObj fields) =
     Ok (["Validated 0 lessons across grades: "], 0%Z)
  /\ exit_status (main seed (JObj fields)) = 0%Z.
Proof.
  intros H.
  assert (Hv : validate_lessons seed (JObj fields) = Ok []).
  { unfold validate_lessons. cbn [Py.get bind]. now destruct H as [-> | ->]. }
  assert (Hm : main seed (JObj fields) =
               Ok (["Validated 0 lessons across grades: "], 0%Z)).
  { unfold main. rewrite Hv. cbn [Py.get bind]. now destruct H as [-> | ->]. }
  rewrite Hm. repeat split. exact Hv.
Qed.

Lemma empty_catalog_passes_witness :
  validate_lessons seed0 (JObj [("version", JInt 1)]) = Ok []
  /\ main seed0 (JObj [("version", JInt 1)]) =
     Ok (["Validated 0 lessons across grades: "], 0%Z)
  /\ exit_status (main seed0 (JObj [("version", JInt 1)])) = 0%Z.
Proof.
  apply (empty_catalog_passes seed0 [("version", JInt 1)]).
  left. reflexivity.
Defined.

(** C10. The variant of every lesson, [None] when the lesson has none, is
    in the set of its group, whether it is allowed or not; so a group that
    has the three required variants and one more receives a coverage
    message whose list of missing variants is empty. *)
Theorem invalid_variant_recorded (seed : Py.hash_seed) (catalog : json)
  (errs : list string) :
  validate_lessons seed catalog = Ok errs ->
  exists lessons per_lesson variants_by_strand,
    catalog_lessons catalog = Ok lessons
    /\ for_each (lesson_body seed) lessons ([], []) =
       Ok (per_lesson, variants_by_strand)
    /\ (forall lesson, In lesson lessons ->
        exists k s,
          In (k, s) variants_by_strand
          /\ key_eqb k (lesson_key lesson) = true
          /\ Py.set_mem (field lesson "variant" JNull) s = true)
    /\ (forall k, In k (map fst variants_by_strand) ->
        (forall r, In r REQUIRED_VARIANTS ->
                   In (JStr r) (group_variants k lessons)) ->
        (exists v, In v (group_variants k lessons)
                   /\ ~ In v (map JStr REQUIRED_VARIANTS)) ->
        In (Py.str (fst k) ++ "/" ++ Py.str (snd k)
            ++ " missing lesson variants: ") errs).
Proof.
  intros H.
  destruct (validate_lessons_inv seed catalog errs H)
    as (lessons & blocks & Hl & Hb & Hloop & ->).
  destruct (blocks_hashable seed lessons blocks Hb) as [Hk Hv].
  rewrite Forall_forall in Hk, Hv.
  exists lessons, (List.concat blocks),
    (map (fun k => (k, set_of (group_variants k lessons) []))
       (group_keys (map lesson_key lessons))).
  repeat split; try assumption.
  - intros lesson Hin.
    destruct (group_keys_complete (map lesson_key lessons) (lesson_key lesson))
      as (k & Hkin & E); [now apply in_map | now apply Hk|].
    exists k, (set_of (group_variants k lessons) []). repeat split.
    + apply in_map_iff. now exists k.
    + assumption.
    + rewrite set_mem_set_of. cbn [Py.set_mem existsb orb].
      apply existsb_exists. exists (lesson_variant lesson). split.
      * unfold group_variants. apply in_map, filter_In. now split.
      * apply eqb_refl. now apply Hv.
  - intros k Hkin Hall (v & Hvin & Hnot).
    rewrite map_map in Hkin. cbn [fst] in Hkin. rewrite map_id in Hkin.
    apply in_or_app. right. apply in_flat_map. exists k. split; [assumption|].
    destruct (coverage_errors_rule lessons k) as [_ Hmiss].
    { apply Forall_forall. exact Hv. }
    destruct Hmiss as (missing & -> & _ & Hm).
    { intros Hc. apply Hnot. now apply Hc. }
    destruct missing as [|r missing]; [now left|].
    exfalso. destruct (Hm r) as [[Hr Hn] _]; [now left|].
    apply Hn. now apply Hall.
Qed.

Lemma invalid_variant_recorded_witness :
  exists lessons per_lesson variants_by_strand,
    catalog_lessons
      (catalog_of [lesson_of "practice"; lesson_of "challenge";
                   lesson_of "remediation"; lesson_of "quiz"]) = Ok lessons
    /\ for_each (lesson_body seed0) lessons ([], []) =
       Ok (per_lesson, variants_by_strand)
    /\ (forall lesson, In lesson lessons ->
        exists k s,
          In (k, s) variants_by_strand
          /\ key_eqb k (lesson_key lesson) = true
          /\ Py.set_mem (field lesson "variant" JNull) s = true)
    /\ (forall k, In k (map fst variants_by_strand) ->
        (forall r, In r REQUIRED_VARIANTS ->
                   In (JStr r) (group_variants k lessons)) ->
        (exists v, In v (group_variants k lessons)
                   /\ ~ In v (map JStr REQUIRED_VARIANTS)) ->
        In (Py.str (fst k) ++ "/" ++ Py.str (snd k)
            ++ " missing lesson variants: ")
          ["L-quiz: variant 'quiz' is not one of ['challenge', 'practice', 'remediation']";
           "3/S1 missing lesson variants: "]).
Proof.
  apply (invalid_variant_recorded seed0
           (catalog_of [lesson_of "practice"; lesson_of "challenge";
                        lesson_of "remediation"; lesson_of "quiz"])).
  reflexivity.
Defined.

(** * Further properties *)

(** ** Every message has a reason *)

Section Justification.

Lemma string_app_assoc (a b c : string) : (a ++ b) ++ c = a ++ b ++ c.
Proof. induction a as [|x a IH]; cbn; [reflexivity | now rewrite IH]. Qed.

Lemma check_in (c : bool) (msg m : string) :
  In m (check c msg) <-> c = true /\ m = msg.
Proof.
  destruct c; cbn; split.
  - intros [<-|[]]. now split.
  - intros [_ ->]. now left.
  - intros [].
  - intros [H _]. discriminate.
Qed.

Lemma item_checks_in (lid : json) (items : list json) (m : string) :
  forall n : nat,
    In m (item_checks lid n items) ->
    exists i item,
      nth_error items i = Some item
      /\ ((Py.truthy (field item "hints" JNull) = false
           /\ m = item_prefix lid (n + i) ++ ": must include at least one hint")
          \/ (Py.truthy (field item "scaffolds" JNull) = false
              /\ m = item_prefix lid (n + i)
                     ++ ": must include at least one scaffold")).
Proof.
  induction items as [|x items IH]; intros n; cbn [item_checks]; [intros []|].
  rewrite !in_app_iff, !check_in, !negb_true_iff.
  intros [[H ->]|[[H ->]|H]].
  - exists 0, x. rewrite Nat.add_0_r. split; [reflexivity | now left].
  - exists 0, x. rewrite Nat.add_0_r. split; [reflexivity | now right].
  - destruct (IH (S n) H) as (i & item & Hnth & Hm).
    exists (S i), item. rewrite <- Nat.add_succ_comm. now split.
Qed.

Lemma rule_justified (lesson : json) (has_score has_minimum : bool)
  (items : list json) (m : string) :
  Py.contains "scoreThreshold" (mastery lesson) = Ok has_score ->
  Py.contains "minimumItems" (mastery lesson) = Ok has_minimum ->
  Py.iter (lesson_items lesson) = Ok items ->
  In m (lesson_checks lesson has_score has_minimum
        ++ item_checks (lesson_id lesson) 0 items)%list ->
  exists r, violated r lesson /\ m = rule_message r lesson.
Proof.
  intros H1 H2 H3. unfold lesson_checks.
  rewrite !in_app_iff, !check_in, !negb_true_iff.
  intros [[[H ->]|[[H ->]|[[H ->]|[[H ->]|[[H ->]|[[H ->]|[H ->]]]]]]]|H].
  - now exists Objectives.
  - exists Variant. split; [|reflexivity]. cbn [violated]. intros Hin.
    apply set_mem_required in Hin. congruence.
  - exists Difficulty. split; [|reflexivity]. cbn [violated]. intros Hin.
    apply set_mem_strs in Hin. congruence.
  - now exists Hints.
  - now exists Scaffolds.
  - exists ScoreThreshold. subst. now split.
  - exists MinimumItems. subst. now split.
  - apply item_checks_in in H as (i & item & Hnth & [[Hf ->]|[Hf ->]]).
    + exists (ItemHints i). split; [|reflexivity]. cbn [violated]. eauto.
    + exists (ItemScaffolds i). split; [|reflexivity]. cbn [violated]. eauto.
Qed.

Lemma block_justified (seed : Py.hash_seed) (lesson : json)
  (block : list string) (m : string) :
  lesson_errors seed lesson = Ok block -> In m block ->
  exists r, violated r lesson /\ m = rule_message r lesson.
Proof.
  intros Hb Hm.
  apply lesson_block in Hb as (h1 & h2 & items & H1 & H2 & H3 & ->).
  eapply rule_justified; eassumption.
Qed.

Lemma Forall2_in_right {A B} (R : A -> B -> Prop) (l : list A) (l' : list B)
  (b : B) :
  Forall2 R l l' -> In b l' -> exists a, In a l /\ R a b.
Proof.
  induction 1 as [|x y l l' Hxy _ IH]; intros Hin; [destruct Hin|].
  destruct Hin as [->|Hin].
  - exists x. split; [now left | assumption].
  - destruct (IH Hin) as (a & Ha & Hab). exists a. split; [now right|assumption].
Qed.

Lemma group_keys_incl (ks : list key) (k : key) :
  In k (group_keys ks) -> In k ks.
Proof.
  induction ks as [|k0 ks IH]; cbn [group_keys]; [intros []|].
  intros [->|H]; [now left|]. right. apply IH.
  now apply filter_In in H.
Qed.

Lemma group_variants_key (k k' : key) (lessons : list json) :
  key_eqb k k' = true -> group_variants k lessons = group_variants k' lessons.
Proof.
  intros E. unfold group_variants. f_equal. apply filter_ext_in'.
  intros l _. destruct (key_eqb k' (lesson_key l)) eqn:E'.
  - eapply key_eqb_trans; eassumption.
  - destruct (key_eqb k (lesson_key l)) eqn:E''; [|reflexivity].
    rewrite <- E'. symmetry. eapply key_eqb_trans; [|eassumption].
    now rewrite key_eqb_sym.
Qed.

End Justification.

(** X1. The validator reports nothing without a reason: every message of
    the list is the message of a rule that some lesson of the catalog
    breaks, or the coverage message of a group whose variants are not
    exactly the required ones. *)
Theorem every_violation_justified (seed : Py.hash_seed) (catalog : json)
  (errs : list string) (lessons : list json) (m : string) :
  validate_lessons seed catalog = Ok errs ->
  catalog_lessons catalog = Ok lessons ->
  In m errs ->
  (exists lesson r,
     In lesson lessons /\ violated r lesson /\ m = rule_message r lesson)
  \/ (exists k,
        In k (map lesson_key lessons)
        /\ ~ covers (group_variants k lessons)
        /\ m = coverage_message k (missing_variants (group_variants k lessons))).
Proof.
  intros H Hl Hm.
  destruct (validate_lessons_inv seed catalog errs H)
    as (lessons' & blocks & Hl' & Hb & _ & ->).
  rewrite Hl in Hl'. injection Hl' as <-.
  apply in_app_or in Hm as [Hm|Hm].
  - left. apply in_concat in Hm as (block & Hblock & Hm).
    pose proof Hb as Hb'. apply map_result_Forall2 in Hb'.
    destruct (Forall2_in_right _ _ _ block Hb' Hblock) as (lesson & Hin & Hle).
    destruct (block_justified seed lesson block m Hle Hm) as (r & Hv & ->).
    now exists lesson, r.
  - right. apply in_flat_map in Hm as (k & Hk & Hm). exists k.
    split; [now apply group_keys_incl|].
    destruct (blocks_hashable seed lessons blocks Hb) as [_ Hv].
    destruct (coverage_errors_rule lessons k Hv) as [Hiff _].
    unfold coverage_errors in *.
    destruct (Py.set_eq (set_of (group_variants k lessons) [])
                REQUIRED_VARIANTS); [destruct Hm|].
    destruct Hm as [<-|[]]. split; [|reflexivity].
    intros Hc. apply Hiff in Hc. discriminate.
Qed.

Lemma every_violation_justified_witness :
  (exists lesson r,
     In lesson [lesson_of "practice"; lesson_of "challenge"]
     /\ violated r lesson
     /\ "3/S1 missing lesson variants: remediation" = rule_message r lesson)
  \/ (exists k,
        In k (map lesson_key [lesson_of "practice"; lesson_of "challenge"])
        /\ ~ covers (group_variants k
                       [lesson_of "practice"; lesson_of "challenge"])
        /\ "3/S1 missing lesson variants: remediation" =
           coverage_message k
             (missing_variants
                (group_variants k
                   [lesson_of "practice"; lesson_of "challenge"]))).
Proof.
  apply (every_violation_justified seed0
           (catalog_of [lesson_of "practice"; lesson_of "challenge"])
           ["3/S1 missing lesson variants: remediation"]).
  - reflexivity.
  - reflexivity.
  - now left.
Defined.

(** ** Catalogs without violation *)

Section CleanCatalog.

Lemma flat_map_nil {A B} (f : A -> list B) (l : list A) :
  flat_map f l = [] <-> forall a, In a l -> f a = [].
Proof.
  induction l as [|a l IH]; cbn; [tauto|]. split.
  - intros H. apply app_eq_nil in H as [Ha Hl]. rewrite IH in Hl.
    intros b [<-|Hb]; auto.
  - intros H. rewrite (H a) by now left. apply IH. auto.
Qed.

Lemma no_message_nil {A} (l : list A) : (forall a, ~ In a l) -> l = [].
Proof. destruct l as [|a l]; [reflexivity|]. intros H. now destruct (H a); left. Qed.

(** A catalog without violation breaks no rule and covers its groups. *)
Lemma clean_sound (seed : Py.hash_seed) (catalog : json)
  (lessons : list json) :
  catalog_lessons catalog = Ok lessons ->
  validate_lessons seed catalog = Ok [] ->
  (forall lesson r, In lesson lessons -> ~ violated r lesson)
  /\ (forall lesson, In lesson lessons ->
                     covers (group_variants (lesson_key lesson) lessons)).
Proof.
  intros Hl H.
  destruct (validate_lessons_inv seed catalog [] H)
    as (lessons' & blocks & Hl' & Hb & _ & Herrs).
  rewrite Hl in Hl'. injection Hl' as <-.
  destruct (blocks_hashable seed lessons blocks Hb) as [Hk Hv].
  symmetry in Herrs. apply app_eq_nil in Herrs as [Hc Hf]. split.
  - intros lesson r Hin Hr.
    pose proof Hb as Hb'. apply map_result_Forall2 in Hb'.
    destruct (Forall2_in_left _ _ _ lesson Hb' Hin) as (block & Hblock & Hle).
    apply lesson_block in Hle as (h1 & h2 & items & H1 & H2 & H3 & ->).
    pose proof (rule_reported lesson h1 h2 items r H1 H2 H3 Hr) as Hm.
    rewrite concat_nil_Forall, Forall_forall in Hc.
    rewrite (Hc _ Hblock) in Hm. destruct Hm.
  - intros lesson Hin.
    rewrite Forall_forall in Hk.
    destruct (group_keys_complete (map lesson_key lessons)
                (lesson_key lesson)) as (k & Hkin & E);
      [now apply in_map | now apply Hk|].
    rewrite <- (group_variants_key k (lesson_key lesson) lessons E).
    rewrite flat_map_nil in Hf.
    destruct (coverage_errors_rule lessons k Hv) as [Hiff _].
    apply Hiff. now apply Hf.
Qed.

(** A catalog of the right shape that breaks no rule and covers its groups
    has no violation. *)
Lemma clean_complete (seed : Py.hash_seed) (catalog : json)
  (lessons : list json) :
  well_shaped catalog = true ->
  catalog_lessons catalog = Ok lessons ->
  (forall lesson r, In lesson lessons -> ~ violated r lesson) ->
  (forall lesson, In lesson lessons ->
                  covers (group_variants (lesson_key lesson) lessons)) ->
  validate_lessons seed catalog = Ok [].
Proof.
  intros Hw Hl Hr Hc.
  destruct (proj2 (validate_lessons_well_shaped seed catalog) Hw) as [errs H].
  destruct (validate_lessons_inv seed catalog errs H)
    as (lessons' & blocks & Hl' & Hb & _ & Herrs).
  rewrite Hl in Hl'. injection Hl' as <-.
  destruct (blocks_hashable seed lessons blocks Hb) as [Hk Hv].
  rewrite H. f_equal. rewrite Herrs.
  replace (List.concat blocks) with (@nil string).
  - apply flat_map_nil. intros k Hkin.
    destruct (coverage_errors_rule lessons k Hv) as [Hiff _].
    apply Hiff. apply group_keys_incl in Hkin.
    apply in_map_iff in Hkin as (lesson & <- & Hin). now apply Hc.
  - symmetry. apply concat_nil_Forall, Forall_forall. intros block Hblock.
    pose proof Hb as Hb'. apply map_result_Forall2 in Hb'.
    destruct (Forall2_in_right _ _ _ block Hb' Hblock)
      as (lesson & Hin & Hle).
    apply no_message_nil. intros m Hm.
    destruct (block_justified seed lesson block m Hle Hm) as (r & Hv' & _).
    now apply (Hr lesson r).
Qed.

End CleanCatalog.

(** X2. On a document of the catalog shape the violation list is empty
    exactly when no lesson breaks a rule and the group of every lesson has
    exactly the three required variants. *)
Theorem no_violation_iff (seed : Py.hash_seed) (catalog : json)
  (lessons : list json) :
  well_shaped catalog = true ->
  catalog_lessons catalog = Ok lessons ->
  validate_lessons seed catalog = Ok [] <->
  (forall lesson r, In lesson lessons -> ~ violated r lesson)
  /\ (forall lesson, In lesson lessons ->
                     covers (group_variants (lesson_key lesson) lessons)).
Proof.
  intros Hw Hl. split.
  - now apply clean_sound.
  - intros [Hr Hc]. now apply clean_complete with (lessons := lessons).
Qed.

Lemma no_violation_iff_witness :
  validate_lessons seed0
    (catalog_of [lesson_of "practice"; lesson_of "quiz"]) = Ok [] <->
  (forall lesson r,
     In lesson [lesson_of "practice"; lesson_of "quiz"] ->
     ~ violated r lesson)
  /\ (forall lesson,
        In lesson [lesson_of "practice"; lesson_of "quiz"] ->
        covers (group_variants (lesson_key lesson)
                  [lesson_of "practice"; lesson_of "quiz"])).
Proof.
  apply (no_violation_iff seed0
           (catalog_of [lesson_of "practice"; lesson_of "quiz"])).
  - reflexivity.
  - reflexivity.
Defined.

(** ** Documents on which the validator raises *)

(** X3. On a parsed document that is not of the catalog shape the
    validator returns no list: it raises [AttributeError] or [TypeError]. *)
Theorem raises_on_ill_shaped (seed : Py.hash_seed) (catalog : json) :
  well_shaped catalog = false ->
  exists e, validate_lessons seed catalog = Raise e.
Proof.
  intros Hw. destruct (validate_lessons seed catalog) as [errs|e] eqn:E.
  - assert (H : well_shaped catalog = true).
    { apply (validate_lessons_well_shaped seed). now exists errs. }
    congruence.
  - now exists e.
Qed.

Lemma raises_on_ill_shaped_witness :
  exists e,
    validate_lessons seed0
      (catalog_of [lesson_of "practice";
                   JObj [("grade", JArr [JInt 3]); ("variant", JStr "quiz")]])
    = Raise e.
Proof.
  apply (raises_on_ill_shaped seed0
           (catalog_of [lesson_of "practice";
                        JObj [("grade", JArr [JInt 3]);
                              ("variant", JStr "quiz")]])).
  reflexivity.
Defined.

(** ** The loop only appends *)

(** X4. The loop over the lessons never changes or removes a message that
    is already in [errors]: from any state it returns the old list followed
    by what it appends to the empty list, and the messages it appends and
    the dictionary it builds do not depend on the old list. *)
Theorem lesson_loop_appends (seed : Py.hash_seed) (lessons : list json)
  (errors errors' : list string) (g g' : groups) :
  for_each (lesson_body seed) lessons (errors, g) = Ok (errors', g') ->
  exists added,
    errors' = (errors ++ added)%list
    /\ for_each (lesson_body seed) lessons ([], g) = Ok (added, g').
Proof.
  rewrite !lesson_loop_frame.
  destruct (map_result (lesson_errors seed) lessons) as [blocks|];
    cbn [bind]; [|discriminate].
  intros [= <- <-]. now exists (List.concat blocks).
Qed.

Lemma lesson_loop_appends_witness :
  exists added,
    ["earlier"; "L-quiz: variant 'quiz' is not one of ['challenge', 'practice', 'remediation']"]
    = (["earlier"] ++ added)%list
    /\ for_each (lesson_body seed0) [lesson_of "quiz"] ([], []) =
       Ok (added, [((JStr "3", JStr "S1"), [JStr "quiz"])]).
Proof.
  apply (lesson_loop_appends seed0 [lesson_of "quiz"] ["earlier"] _ []).
  reflexivity.
Defined.

(** ** The messages name the lesson *)

Section Naming.

Lemma rule_message_prefix (r : rule) (lesson : json) :
  exists rest, rule_message r lesson = Py.str (lesson_id lesson) ++ rest.
Proof.
  destruct r; cbn [rule_message]; unfold item_prefix;
    rewrite ?string_app_assoc; eauto.
Qed.

End Naming.

(** X5. Every message that the loop body reports for a lesson starts with
    the identifier of the lesson as [str] prints it, which is the
    placeholder [<missing>] for a lesson without identifier. *)
Theorem lesson_messages_name_lesson (seed : Py.hash_seed) (lesson : json)
  (block : list string) (m : string) :
  lesson_errors seed lesson = Ok block ->
  In m block ->
  exists rest, m = Py.str (field lesson "id" (JStr "<missing>")) ++ rest.
Proof.
  intros Hb Hm.
  destruct (block_justified seed lesson block m Hb Hm) as (r & _ & ->).
  apply rule_message_prefix.
Qed.

Lemma lesson_messages_name_lesson_witness :
  exists rest,
    "<missing> item 1: must include at least one scaffold" =
    Py.str (field (JObj [("items", JArr [JObj [("hints", JInt 1)]])]) "id"
              (JStr "<missing>")) ++ rest.
Proof.
  apply (lesson_messages_name_lesson seed0
           (JObj [("items", JArr [JObj [("hints", JInt 1)]])])
           ["<missing>: objectives must not be empty";
            "<missing>: variant 'None' is not one of ['challenge', 'practice', 'remediation']";
            "<missing>: difficulty 'None' is not recognised";
            "<missing>: must provide at least one lesson hint";
            "<missing>: must provide at least one lesson scaffold";
            "<missing>: masteryRule missing scoreThreshold";
            "<missing>: masteryRule missing minimumItems";
            "<missing> item 1: must include at least one scaffold"]).
  - reflexivity.
  - do 7 right. now left.
Defined.

(** ** The dictionary of the groups *)

Section Dictionary.

Lemma distinct_filter (p : key -> bool) (ks : list key) :
  distinct ks -> distinct (filter p ks).
Proof.
  induction ks as [|k ks IH]; cbn [filter distinct]; [easy|].
  intros [Hk Hd]. destruct (p k); cbn [distinct]; [|now apply IH].
  split; [|now apply IH]. intros k' Hin. apply Hk.
  now apply filter_In in Hin.
Qed.

Lemma distinct_group_keys (ks : list key) : distinct (group_keys ks).
Proof.
  induction ks as [|k ks IH]; cbn [group_keys distinct]; [exact I|]. split.
  - intros k' Hin. apply filter_In in Hin as [_ Hin].
    now apply negb_true_iff in Hin.
  - now apply distinct_filter.
Qed.

Lemma set_add_not_nil (v : json) (s : list json) : Py.set_add v s <> [].
Proof.
  unfold Py.set_add. destruct (Py.set_mem v s) eqn:E.
  - destruct s; [discriminate E | discriminate].
  - destruct s; discriminate.
Qed.

Lemma set_of_not_nil (vs s : list json) :
  vs <> [] \/ s <> [] -> set_of vs s <> [].
Proof.
  revert s. induction vs as [|v vs IH]; intros s H; cbn [set_of fold_left].
  - now destruct H.
  - apply IH. right. apply set_add_not_nil.
Qed.

End Dictionary.

(** X6. The dictionary that the first loop builds keeps its invariants: no
    two of its keys are equal, every key is the key of a lesson, and every
    set is not empty, has no two equal elements and only holds variants of
    lessons of its group. *)
Theorem dictionary_invariant (seed : Py.hash_seed) (lessons : list json)
  (errors : list string) (variants_by_strand : groups) :
  for_each (lesson_body seed) lessons ([], []) = Ok (errors, variants_by_strand) ->
  distinct (map fst variants_by_strand)
  /\ forall k s,
       In (k, s) variants_by_strand ->
       In k (map lesson_key lessons)
       /\ s <> []
       /\ unique s
       /\ forall v, In v s ->
                    exists lesson,
                      In lesson lessons
                      /\ key_eqb k (lesson_key lesson) = true
                      /\ field lesson "variant" JNull = v.
Proof.
  rewrite lesson_loop_frame.
  destruct (map_result (lesson_errors seed) lessons) as [blocks|] eqn:Hb;
    cbn [bind]; [|discriminate].
  intros [= _ <-].
  destruct (blocks_hashable seed lessons blocks Hb) as [Hk _].
  rewrite (grouping lessons [] Hk I). cbn [map app known existsb negb].
  rewrite filter_all. split.
  - rewrite map_map. cbn [fst]. rewrite map_id. apply distinct_group_keys.
  - intros k s Hin. apply in_map_iff in Hin as (k' & [= <- <-] & Hin).
    pose proof (group_keys_incl _ _ Hin) as Hkin.
    split; [assumption|].
    assert (Hne : group_variants k' lessons <> []).
    { apply in_map_iff in Hkin as (lesson & Hkey & Hl).
      unfold group_variants. intros Hnil.
      assert (Hf : In lesson (filter (fun l => key_eqb k' (lesson_key l))
                                lessons)).
      { apply filter_In. split; [assumption|]. rewrite Hkey.
        apply key_eqb_refl. rewrite <- Hkey.
        rewrite Forall_forall in Hk. now apply Hk. }
      apply (in_map lesson_variant) in Hf. rewrite Hnil in Hf. destruct Hf. }
    split; [apply set_of_not_nil; now left|].
    split; [now apply unique_set_of|].
    intros v Hv. apply in_set_of in Hv as [[]|Hv].
    unfold group_variants in Hv.
    apply in_map_iff in Hv as (lesson & <- & Hl).
    apply filter_In in Hl as [Hl E]. now exists lesson.
Qed.

Lemma dictionary_invariant_witness :
  distinct (map fst [((JStr "3", JStr "S1"), [JStr "quiz"; JStr "practice"])])
  /\ forall k s,
       In (k, s) [((JStr "3", JStr "S1"), [JStr "quiz"; JStr "practice"])] ->
       In k (map lesson_key
               [lesson_of "quiz"; lesson_of "practice"; lesson_of "quiz"])
       /\ s <> []
       /\ unique s
       /\ forall v, In v s ->
                    exists lesson,
                      In lesson
                        [lesson_of "quiz"; lesson_of "practice";
                         lesson_of "quiz"]
                      /\ key_eqb k (lesson_key lesson) = true
                      /\ field lesson "variant" JNull = v.
Proof.
  apply (dictionary_invariant seed0
           [lesson_of "quiz"; lesson_of "practice"; lesson_of "quiz"]
           ["L-quiz: variant 'quiz' is not one of ['challenge', 'practice', 'remediation']";
            "L-quiz: variant 'quiz' is not one of ['challenge', 'practice', 'remediation']"]).
  reflexivity.
Defined.

(** ** The summary of a catalog without violation *)

Section SummaryLine.

Lemma grade_set_loop (seed : Py.hash_seed) (lessons : list json)
  (blocks : list (list string)) :
  map_result (lesson_errors seed) lessons = Ok blocks ->
  forall s, for_each grade_set_body lessons s =
            Ok (set_of (map lesson_grade lessons) s).
Proof.
  rewrite map_result_Forall2.
  induction 1 as [|lesson blk ls blks Hl _ IH]; intros s; [reflexivity|].
  cbn [for_each map set_of fold_left].
  destruct (lesson_errors_hashable seed lesson blk Hl) as [[Hg _] _].
  destruct lesson as [| | | | |fields]; try discriminate.
  unfold grade_set_body, lesson_grade, field. cbn [Py.get bind].
  unfold hashable, lesson_key, field in Hg. cbn [fst] in Hg.
  destruct (Py.lookup "grade" fields) as [v|].
  - rewrite Hg. cbn [bind]. apply IH.
  - cbn [Py.hash bind]. apply IH.
Qed.

Lemma len_iter_length (v : json) (l : list json) :
  Py.iter v = Ok l -> Py.len v = Ok (List.length l).
Proof.
  destruct v as [| | |s|x|f]; cbn; try discriminate; intros [= <-].
  - f_equal. induction s as [|c s IH]; cbn; [reflexivity | now rewrite IH].
  - reflexivity.
  - now rewrite length_map.
Qed.

(** [main] on a catalog without violation. *)
Lemma main_clean (seed : Py.hash_seed) (catalog : json) (lessons : list json) :
  validate_lessons seed catalog = Ok [] ->
  catalog_lessons catalog = Ok lessons ->
  main seed catalog =
  if forallb is_str (set_of (map lesson_grade lessons) [])
  then Ok (["Validated " ++ Py.str_of_nat (List.length lessons)
            ++ " lessons across grades: "
            ++ String.concat ", "
                 (Py.sorted_str
                    (str_values (set_of (map lesson_grade lessons) [])))],
           0%Z)
  else Raise TypeError.
Proof.
  intros Hv Hl. unfold main. rewrite Hv. cbn [bind].
  destruct (validate_lessons_inv seed catalog [] Hv)
    as (lessons' & blocks & Hl' & Hb & _ & _).
  rewrite Hl in Hl'. injection Hl' as <-.
  unfold catalog_lessons in Hl.
  destruct (Py.get catalog "lessons" (JArr [])) as [lv|]; cbn [bind] in *;
    [|discriminate].
  rewrite Hl. cbn [bind].
  rewrite (grade_set_loop seed lessons blocks Hb). cbn [bind].
  rewrite (len_iter_length lv lessons Hl).
  rewrite join_after_len, sorted_join_set_iter, sorted_join.
  now destruct (forallb is_str (set_of (map lesson_grade lessons) [])).
Qed.



Lemma all_str_set_of (vs : list json) :
  Forall hashable vs ->
  forallb is_str (set_of vs []) = forallb is_str vs.
Proof.
  intros Hh. rewrite Forall_forall in Hh.
  destruct (forallb is_str vs) eqn:E.
  - rewrite forallb_forall in *. intros v Hv.
    apply in_set_of in Hv as [[]|Hv]. now apply E.
  - apply not_true_iff_false. intros H. apply not_true_iff_false in E.
    apply E. rewrite forallb_forall in *. intros v Hv.
    assert (Hm : Py.set_mem v (set_of vs []) = true).
    { rewrite set_mem_set_of. cbn [Py.set_mem existsb orb].
      apply existsb_exists. exists v. split; [assumption|].
      apply eqb_refl. now apply Hh. }
    apply existsb_exists in Hm as (v' & Hv' & Eq).
    specialize (H v' Hv'). destruct v'; try discriminate.
    rewrite eqb_sym in Eq. apply eqb_JStr in Eq. now subst.
Qed.

(** *** [sorted] sorts *)







End SummaryLine.

Section Grades.

Lemma grades_hashable (seed : Py.hash_seed) (lessons : list json)
  (blocks : list (list string)) :
  map_result (lesson_errors seed) lessons = Ok blocks ->
  Forall hashable (map lesson_grade lessons).
Proof.
  intros Hb. destruct (blocks_hashable seed lessons blocks Hb) as [Hk _].
  apply Forall_map. eapply Forall_impl; [|exact Hk].
  intros l [Hg _]. unfold lesson_key, lesson_grade, field in *. cbn [fst] in Hg.
  destruct l; try reflexivity.
  now destruct (Py.lookup "grade" fields).
Qed.

End Grades.



(** X8. When the violation list is empty and some lesson has no grade, or
    a grade that is not a string, [main] prints nothing and raises
    [TypeError]; the exit status is then 1. *)
Theorem main_raises_on_non_string_grade (seed : Py.hash_seed) (catalog : json)
  (lessons : list json) (lesson : json) :
  validate_lessons seed catalog = Ok [] ->
  catalog_lessons catalog = Ok lessons ->
  In lesson lessons ->
  is_str (field lesson "grade" JNull) = false ->
  main seed catalog = Raise TypeError
  /\ exit_status (main seed catalog) = 1%Z.
Proof.
  intros Hv Hl Hin Hg.
  destruct (validate_lessons_inv seed catalog [] Hv)
    as (lessons' & blocks & Hl' & Hb & _ & _).
  rewrite Hl in Hl'. injection Hl' as <-.
  pose proof (grades_hashable seed lessons blocks Hb) as Hh.
  rewrite (main_clean seed catalog lessons Hv Hl), (all_str_set_of _ Hh).
  replace (forallb is_str (map lesson_grade lessons)) with false;
    [now split|].
  symmetry. apply not_true_iff_false. intros Hall.
  rewrite forallb_forall in Hall.
  specialize (Hall (lesson_grade lesson) (in_map _ _ _ Hin)).
  unfold lesson_grade in Hall. congruence.
Qed.

Lemma main_raises_on_non_string_grade_witness :
  main seed0
    (catalog_of [graded_lesson (JInt 3) "practice";
                 graded_lesson (JInt 3) "challenge";
                 graded_lesson (JInt 3) "remediation"]) = Raise TypeError
  /\ exit_status
       (main seed0
          (catalog_of [graded_lesson (JInt 3) "practice";
                       graded_lesson (JInt 3) "challenge";
                       graded_lesson (JInt 3) "remediation"])) = 1%Z.
Proof.
  apply (main_raises_on_non_string_grade seed0
           (catalog_of [graded_lesson (JInt 3) "practice";
                        graded_lesson (JInt 3) "challenge";
                        graded_lesson (JInt 3) "remediation"])
           [graded_lesson (JInt 3) "practice";
            graded_lesson (JInt 3) "challenge";
            graded_lesson (JInt 3) "remediation"]
           (graded_lesson (JInt 3) "practice")).
  - reflexivity.
  - reflexivity.
  - now left.
  - reflexivity.
Defined.

(** ** Loading the catalog *)

(** X9. The message with which [load_catalog] exits tells what went wrong:
    a message produced for a missing file is never produced for a file
    that is not valid JSON, whatever the paths and the diagnostic, and the
    message for a missing file determines its path. *)
Theorem load_catalog_message_tells (read_text read_text' : string -> read_outcome)
  (loads loads' : string -> parse_outcome) (path path' message : string) :
  load_catalog read_text loads path = SystemExit message ->
  load_catalog read_text' loads' path' = SystemExit message ->
  (read_text path = FileNotFoundError <-> read_text' path' = FileNotFoundError)
  /\ (read_text path = FileNotFoundError -> path = path').
Proof.
  unfold load_catalog.
  destruct (read_text path) as [text| |];
    destruct (read_text' path') as [text'| |];
    try destruct (loads text); try destruct (loads' text');
    try discriminate;
    intros H1 H2; injection H1 as H1; injection H2 as H2; subst message;
    cbn in H2.
  - split; [split; discriminate | discriminate].
  - discriminate.
  - discriminate.
  - split; [tauto|]. intros _. now injection H2.
Qed.

Lemma load_catalog_message_tells_witness :
  ((fun _ : string => FileNotFoundError) "a.json" = FileNotFoundError <->
   (fun _ : string => FileNotFoundError) "a.json" = FileNotFoundError)
  /\ ((fun _ : string => FileNotFoundError) "a.json" = FileNotFoundError ->
      "a.json" = "a.json").
Proof.
  apply (load_catalog_message_tells
           (fun _ => FileNotFoundError) (fun _ => FileNotFoundError)
           (fun _ => JSONDecodeError "") (fun _ => JSONDecodeError "")
           "a.json" "a.json" "Catalog not found at a.json").
  - reflexivity.
  - reflexivity.
Defined.

(** ** The exit status and the output of the script *)

Section Script.



End Script.




(** ** The order of the lessons *)

Section LessonOrder.

Lemma group_variants_perm (k : key) (lessons lessons' : list json) :
  Permutation lessons lessons' ->
  forall v, In v (group_variants k lessons) -> In v (group_variants k lessons').
Proof.
  intros P v. unfold group_variants. rewrite !in_map_iff.
  intros (l & Hv & Hl). exists l. split; [assumption|].
  apply filter_In in Hl as [Hl E]. apply filter_In. split; [|assumption].
  now apply (Permutation_in _ P).
Qed.

Lemma covers_perm (k : key) (lessons lessons' : list json) :
  Permutation lessons lessons' ->
  covers (group_variants k lessons) -> covers (group_variants k lessons').
Proof.
  intros P Hc v. rewrite <- (Hc v). split.
  - apply group_variants_perm. now symmetry.
  - now apply group_variants_perm.
Qed.

Lemma clean_perm (seed : Py.hash_seed) (fields fields' : list (string * json))
  (lessons lessons' : list json) :
  Py.lookup "lessons" fields = Some (JArr lessons) ->
  Py.lookup "lessons" fields' = Some (JArr lessons') ->
  Permutation lessons lessons' ->
  validate_lessons seed (JObj fields) = Ok [] ->
  validate_lessons seed (JObj fields') = Ok [].
Proof.
  intros Hl Hl' P Hv.
  assert (Hc : catalog_lessons (JObj fields) = Ok lessons).
  { unfold catalog_lessons. cbn [Py.get bind]. now rewrite Hl. }
  assert (Hc' : catalog_lessons (JObj fields') = Ok lessons').
  { unfold catalog_lessons. cbn [Py.get bind]. now rewrite Hl'. }
  assert (Hw : well_shaped (JObj fields) = true).
  { apply (validate_lessons_well_shaped seed). eauto. }
  destruct (clean_sound seed (JObj fields) lessons Hc Hv) as [Hr Hg].
  apply clean_complete with (lessons := lessons').
  - unfold well_shaped, field in *. rewrite Hl in Hw. rewrite Hl'.
    now rewrite <- (forallb_perm well_shaped_lesson lessons lessons' P).
  - assumption.
  - intros lesson r Hin. apply Hr.
    now apply (Permutation_in _ (Permutation_sym P)).
  - intros lesson Hin. apply (covers_perm _ lessons lessons' P). apply Hg.
    now apply (Permutation_in _ (Permutation_sym P)).
Qed.

End LessonOrder.

(** X12. Whether a catalog passes does not depend on the order of its
    lessons: two catalogs whose lesson arrays are permutations of each
    other have an empty violation list together. *)
Theorem pass_independent_of_order (seed : Py.hash_seed)
  (fields fields' : list (string * json)) (lessons lessons' : list json) :
  Py.lookup "lessons" fields = Some (JArr lessons) ->
  Py.lookup "lessons" fields' = Some (JArr lessons') ->
  Permutation lessons lessons' ->
  validate_lessons seed (JObj fields) = Ok [] <->
  validate_lessons seed (JObj fields') = Ok [].
Proof.
  intros Hl Hl' P. split.
  - now apply clean_perm with (lessons := lessons) (lessons' := lessons').
  - apply clean_perm with (lessons := lessons') (lessons' := lessons);
      [assumption | assumption | now symmetry].
Qed.

Lemma pass_independent_of_order_witness :
  validate_lessons seed0
    (JObj [("lessons",
            JArr [lesson_of "practice"; lesson_of "challenge";
                  lesson_of "remediation"])]) = Ok [] <->
  validate_lessons seed0
    (JObj [("version", JInt 2);
           ("lessons",
            JArr [lesson_of "challenge"; lesson_of "practice";
                  lesson_of "remediation"])]) = Ok [].
Proof.
  apply (pass_independent_of_order seed0 _ _
           [lesson_of "practice"; lesson_of "challenge";
            lesson_of "remediation"]
           [lesson_of "challenge"; lesson_of "practice";
            lesson_of "remediation"]).
  - reflexivity.
  - reflexivity.
  - apply perm_swap.
Defined.

(** ** The number of messages *)

Section Counting.

Lemma length_check (c : bool) (m : string) : List.length (check c m) <= 1.
Proof. destruct c; cbn; lia. Qed.

Lemma length_lesson_checks (lesson : json) (h1 h2 : bool) :
  List.length (lesson_checks lesson h1 h2) <= 7.
Proof.
  unfold lesson_checks. rewrite !length_app.
  repeat match goal with
         | |- context [check ?c ?m] =>
             pose proof (length_check c m);
             set (check c m) in *
         end.
  lia.
Qed.

Lemma length_item_checks (lid : json) (items : list json) :
  forall n, List.length (item_checks lid n items) <= 2 * List.length items.
Proof.
  induction items as [|x items IH]; intros n; cbn [item_checks List.length];
    [lia|].
  rewrite !length_app. specialize (IH (S n)).
  pose proof (length_check (negb (Py.truthy (field x "hints" JNull)))
                (item_prefix lid n ++ ": must include at least one hint")).
  pose proof (length_check (negb (Py.truthy (field x "scaffolds" JNull)))
                (item_prefix lid n ++ ": must include at least one scaffold")).
  lia.
Qed.

Lemma length_block (seed : Py.hash_seed) (lesson : json)
  (block : list string) :
  lesson_errors seed lesson = Ok block ->
  List.length block <= 7 + 2 * item_count lesson.
Proof.
  intros Hb.
  apply lesson_block in Hb as (h1 & h2 & items & _ & _ & H3 & ->).
  unfold item_count. rewrite H3, length_app.
  pose proof (length_lesson_checks lesson h1 h2).
  pose proof (length_item_checks (lesson_id lesson) items 0). lia.
Qed.

Lemma length_blocks (seed : Py.hash_seed) (lessons : list json)
  (blocks : list (list string)) :
  Forall2 (fun lesson block => lesson_errors seed lesson = Ok block)
    lessons blocks ->
  List.length (List.concat blocks)
  <= 7 * List.length lessons + 2 * list_sum (map item_count lessons).
Proof.
  induction 1 as [|lesson block ls bs Hb _ IH];
    cbn [List.concat map list_sum fold_right List.length]; [lia|].
  rewrite length_app. apply length_block in Hb. unfold list_sum in *. lia.
Qed.

Lemma length_group_keys (ks : list key) :
  List.length (group_keys ks) <= List.length ks.
Proof.
  induction ks as [|k ks IH]; cbn [group_keys List.length]; [lia|].
  pose proof (filter_length_le (fun k' => negb (key_eqb k k')) (group_keys ks)).
  lia.
Qed.

Lemma length_coverage (lessons : list json) (ks : list key) :
  List.length
    (flat_map (fun k => coverage_errors k (group_variants k lessons)) ks)
  <= List.length ks.
Proof.
  induction ks as [|k ks IH]; cbn [flat_map List.length]; [lia|].
  rewrite length_app. unfold coverage_errors at 1.
  destruct (Py.set_eq _ _); cbn [List.length]; lia.
Qed.

End Counting.

(** X13. The validator reports at most seven messages for a lesson, two
    for each of its items, and one for each group; the groups are at most
    as many as the lessons. *)
Theorem violations_bounded (seed : Py.hash_seed) (catalog : json)
  (errs : list string) (lessons : list json) :
  validate_lessons seed catalog = Ok errs ->
  catalog_lessons catalog = Ok lessons ->
  List.length errs
  <= 7 * List.length lessons + 2 * list_sum (map item_count lessons)
     + List.length (group_keys (map lesson_key lessons))
  /\ List.length (group_keys (map lesson_key lessons)) <= List.length lessons.
Proof.
  intros H Hl.
  destruct (validate_lessons_inv seed catalog errs H)
    as (lessons' & blocks & Hl' & Hb & _ & ->).
  rewrite Hl in Hl'. injection Hl' as <-.
  apply map_result_Forall2 in Hb. split.
  - rewrite length_app.
    pose proof (length_blocks seed lessons blocks Hb).
    pose proof (length_coverage lessons (group_keys (map lesson_key lessons))).
    lia.
  - pose proof (length_group_keys (map lesson_key lessons)) as Hk.
    now rewrite length_map in Hk.
Qed.

Lemma violations_bounded_witness :
  List.length
    ["<missing>: objectives must not be empty";
     "<missing>: variant 'None' is not one of ['challenge', 'practice', 'remediation']";
     "<missing>: difficulty 'None' is not recognised";
     "<missing>: must provide at least one lesson hint";
     "<missing>: must provide at least one lesson scaffold";
     "<missing>: masteryRule missing scoreThreshold";
     "<missing>: masteryRule missing minimumItems";
     "<missing> item 1: must include at least one hint";
     "<missing> item 1: must include at least one scaffold";
     "<missing>/<missing> missing lesson variants: challenge, practice, remediation"]
  <= 7 * List.length [JObj [("items", JArr [JObj []])]]
     + 2 * list_sum (map item_count [JObj [("items", JArr [JObj []])]])
     + List.length
         (group_keys (map lesson_key [JObj [("items", JArr [JObj []])]]))
  /\ List.length
       (group_keys (map lesson_key [JObj [("items", JArr [JObj []])]]))
     <= List.length [JObj [("items", JArr [JObj []])]].
Proof.
  apply (violations_bounded seed0
           (catalog_of [JObj [("items", JArr [JObj []])]])).
  - reflexivity.
  - reflexivity.
Defined.

(** ** Absent, empty and null values *)

Section EdgeValues.

Lemma broken_rule_in_errs (seed : Py.hash_seed) (catalog : json)
  (errs : list string) (lessons : list json) (lesson : json) (r : rule) :
  validate_lessons seed catalog = Ok errs ->
  catalog_lessons catalog = Ok lessons ->
  In lesson lessons ->
  violated r lesson ->
  In (rule_message r lesson) errs.
Proof.
  intros H Hl Hin Hv.
  destruct (validate_lessons_inv seed catalog errs H)
    as (lessons' & blocks & Hl' & Hb & _ & ->).
  rewrite Hl in Hl'. injection Hl' as <-.
  apply map_result_Forall2 in Hb.
  destruct (Forall2_in_left _ _ _ lesson Hb Hin) as (block & Hblock & Hle).
  apply lesson_block in Hle as (h1 & h2 & items & H1 & H2 & H3 & ->).
  apply in_or_app. left. apply in_concat.
  eexists. split; [exact Hblock|]. now apply rule_reported.
Qed.

Lemma lesson_errors_null_items (seed : Py.hash_seed)
  (fields : list (string * json)) :
  Py.lookup "items" fields = Some JNull ->
  lesson_errors seed (JObj fields) = Raise TypeError.
Proof.
  intros Hi. rewrite lesson_errors_eq. rewrite !hash_is_hashable.
  repeat match goal with
         | |- context [is_hashable ?v] =>
             destruct (is_hashable v); cbn [bind]; [|reflexivity]
         end.
  unfold mastery.
  destruct (field (JObj fields) "masteryRule" JNull) as [|[]|z|s|l|f];
    cbn [Py.truthy Py.contains bind]; try reflexivity;
    try (destruct (negb _); cbn [Py.contains bind]; try reflexivity);
    try (destruct l; cbn [Py.contains bind]);
    try (destruct f; cbn [Py.contains bind]);
    unfold lesson_items, field; rewrite Hi; reflexivity.
Qed.

End EdgeValues.

(** X14. A mastery rule that is absent, or null, false, zero or empty, is
    read as the empty dictionary: the lesson gets the two messages of the
    mastery rule. *)
Theorem falsy_mastery_rule_reported (seed : Py.hash_seed) (catalog : json)
  (errs : list string) (lessons : list json) (lesson : json) :
  validate_lessons seed catalog = Ok errs ->
  catalog_lessons catalog = Ok lessons ->
  In lesson lessons ->
  Py.truthy (field lesson "masteryRule" JNull) = false ->
  In (Py.str (field lesson "id" (JStr "<missing>"))
      ++ ": masteryRule missing scoreThreshold") errs
  /\ In (Py.str (field lesson "id" (JStr "<missing>"))
         ++ ": masteryRule missing minimumItems") errs.
Proof.
  intros H Hl Hin Hf. split.
  - apply (broken_rule_in_errs seed catalog errs lessons lesson ScoreThreshold);
      try assumption.
    cbn [violated]. unfold mastery. now rewrite Hf.
  - apply (broken_rule_in_errs seed catalog errs lessons lesson MinimumItems);
      try assumption.
    cbn [violated]. unfold mastery. now rewrite Hf.
Qed.

Lemma falsy_mastery_rule_reported_witness :
  In (Py.str (field (JObj [("id", JStr "L1"); ("masteryRule", JArr [])]) "id"
                (JStr "<missing>"))
      ++ ": masteryRule missing scoreThreshold")
    ["L1: objectives must not be empty";
     "L1: variant 'None' is not one of ['challenge', 'practice', 'remediation']";
     "L1: difficulty 'None' is not recognised";
     "L1: must provide at least one lesson hint";
     "L1: must provide at least one lesson scaffold";
     "L1: masteryRule missing scoreThreshold";
     "L1: masteryRule missing minimumItems";
     "<missing>/<missing> missing lesson variants: challenge, practice, remediation"]
  /\ In (Py.str (field (JObj [("id", JStr "L1"); ("masteryRule", JArr [])])
                   "id" (JStr "<missing>"))
         ++ ": masteryRule missing minimumItems")
       ["L1: objectives must not be empty";
        "L1: variant 'None' is not one of ['challenge', 'practice', 'remediation']";
        "L1: difficulty 'None' is not recognised";
        "L1: must provide at least one lesson hint";
        "L1: must provide at least one lesson scaffold";
        "L1: masteryRule missing scoreThreshold";
        "L1: masteryRule missing minimumItems";
        "<missing>/<missing> missing lesson variants: challenge, practice, remediation"].
Proof.
  apply (falsy_mastery_rule_reported seed0
           (catalog_of [JObj [("id", JStr "L1"); ("masteryRule", JArr [])]])
           _ [JObj [("id", JStr "L1"); ("masteryRule", JArr [])]]).
  - reflexivity.
  - reflexivity.
  - now left.
  - reflexivity.
Defined.

(** X15. A null value is not an absent one: when "lessons" is null, or the
    "items" of the first lesson are null, the validator raises [TypeError],
    although it returns when the key is absent. *)
Theorem null_sequence_raises (seed : Py.hash_seed)
  (fields : list (string * json)) :
  Py.lookup "lessons" fields = Some JNull
  \/ (exists lesson_fields rest,
        Py.lookup "lessons" fields = Some (JArr (JObj lesson_fields :: rest))
        /\ Py.lookup "items" lesson_fields = Some JNull) ->
  validate_lessons seed (JObj fields) = Raise TypeError.
Proof.
  intros [Hl|(lf & rest & Hl & Hi)].
  - unfold validate_lessons. cbn [Py.get bind]. now rewrite Hl.
  - rewrite validate_lessons_eq. unfold catalog_lessons.
    cbn [Py.get bind]. rewrite Hl. cbn [Py.iter bind map_result].
    now rewrite (lesson_errors_null_items seed lf Hi).
Qed.

Lemma null_sequence_raises_witness :
  validate_lessons seed0
    (JObj [("lessons", JArr [JObj [("id", JStr "L1"); ("items", JNull)]])])
  = Raise TypeError.
Proof.
  apply (null_sequence_raises seed0
           [("lessons", JArr [JObj [("id", JStr "L1"); ("items", JNull)]])]).
  right. exists [("id", JStr "L1"); ("items", JNull)], []. split; reflexivity.
Defined.
